(** * credly-go: the authenticated dispatcher and the resource operations

    A shallow embedding of package [credly] (client, badge and badge
    template files) and the properties of its request pipeline.

    Go strings are byte sequences and are embedded as [string]; Go's [int]
    status code is a [Z]; an [error] is identified by its [Error()] text;
    a header map is a finite map from header names to value lists. *)

From Stdlib Require Import ZArith NArith Ascii String List Lia.
From stdpp Require Import base strings gmap list pretty.

Local Open Scope string_scope.
Local Open Scope Z_scope.

(** ** Collaborators from Go's standard library *)

(** *** encoding/base64, [StdEncoding.EncodeToString] *)
Module base64.

Definition encodeStd : string :=
  "ABCDEFGHIJKLMNOPQRSTUVWXYZabcdefghijklmnopqrstuvwxyz0123456789+/".

Definition StdPadding : ascii := "="%char.

(** [enc.encode[v & 0x3F]]. *)
Definition encode (v : N) : ascii :=
  match String.get (N.to_nat (N.land v 63)) encodeStd with
  | Some ch => ch
  | None => StdPadding
  end.

(** Whole three-byte groups give four digits each; a remainder of one or
    two bytes gives two or three digits, padded to four. *)
Fixpoint EncodeToString (src : string) : string :=
  match src with
  | EmptyString => EmptyString
  | String a EmptyString =>
      let val := N.shiftl (N_of_ascii a) 16 in
      String (encode (N.shiftr val 18))
        (String (encode (N.shiftr val 12))
           (String StdPadding (String StdPadding EmptyString)))
  | String a (String b EmptyString) =>
      let val := N.lor (N.shiftl (N_of_ascii a) 16) (N.shiftl (N_of_ascii b) 8) in
      String (encode (N.shiftr val 18))
        (String (encode (N.shiftr val 12))
           (String (encode (N.shiftr val 6))
              (String StdPadding EmptyString)))
  | String a (String b (String c rest)) =>
      let val := N.lor (N.lor (N.shiftl (N_of_ascii a) 16) (N.shiftl (N_of_ascii b) 8))
                   (N_of_ascii c) in
      String (encode (N.shiftr val 18))
        (String (encode (N.shiftr val 12))
           (String (encode (N.shiftr val 6))
              (String (encode val) (EncodeToString rest))))
  end.

End base64.

(** *** net/url, [QueryEscape] *)
Module url.

Definition upperhex : string := "0123456789ABCDEF".

Definition hexdigit (v : N) : ascii :=
  match String.get (N.to_nat (N.land v 15)) upperhex with
  | Some ch => ch
  | None => "0"%char
  end.

Definition between (lo hi : ascii) (c : ascii) : bool :=
  (N_of_ascii lo <=? N_of_ascii c)%N && (N_of_ascii c <=? N_of_ascii hi)%N.

(** [shouldEscape(c, encodeQueryComponent)]: letters, digits and the
    unreserved marks pass; every other byte is escaped. *)
Definition shouldEscape (c : ascii) : bool :=
  if between "a" "z" c || between "A" "Z" c || between "0" "9" c then false
  else if Ascii.eqb c "-" || Ascii.eqb c "_" || Ascii.eqb c "." || Ascii.eqb c "~"
       then false
       else true.

Fixpoint QueryEscape (s : string) : string :=
  match s with
  | EmptyString => EmptyString
  | String c rest =>
      if shouldEscape c then
        if Ascii.eqb c " " then String "+" (QueryEscape rest)
        else String "%" (String (hexdigit (N.shiftr (N_of_ascii c) 4))
                           (String (hexdigit (N_of_ascii c)) (QueryEscape rest)))
      else String c (QueryEscape rest)
  end.

End url.

(** *** strings and fmt *)
Module strings.

Fixpoint Join (elems : list string) (sep : string) : string :=
  match elems with
  | [] => ""
  | [e] => e
  | e :: rest => e +:+ sep +:+ Join rest sep
  end.

Fixpoint HasPrefix (s prefix : string) : bool :=
  match prefix, s with
  | EmptyString, _ => true
  | String p prefix', String c s' => Ascii.eqb c p && HasPrefix s' prefix'
  | String _ _, EmptyString => false
  end.

Fixpoint Contains (s substr : string) : bool :=
  HasPrefix s substr ||
  match s with
  | EmptyString => false
  | String _ s' => Contains s' substr
  end.

End strings.

Module fmt.
(** The [%d] verb on an [int]. *)
Definition d (n : Z) : string := pretty n.
End fmt.

(** *** net/http *)
Module http.

Definition StatusOK : Z := 200.
Definition StatusCreated : Z := 201.
Definition StatusUnprocessableEntity : Z := 422.

(** A [Header] value is [None] for the nil map and [Some] of its entries
    for an allocated one.  Reading a nil map finds nothing. *)
#[global] Instance Header_lookup
  : Lookup string (list string) (option (gmap string (list string))) :=
  fun key h =>
    match h with
    | Some entries => entries !! key
    | None => None
    end.

(** [Header.Set key value] on an allocated map replaces whatever [key]
    held by the single value.  The three keys the package sets are
    already in canonical form, so the key is used as written. *)
Definition Header_Set (key value : string) (h : gmap string (list string))
  : gmap string (list string) :=
  <[key := [value]]> h.

Definition Header_Get (key : string) (h : option (gmap string (list string))) : string :=
  match h !! key with
  | Some (v :: _) => v
  | _ => ""
  end.

(** An outgoing request: [URL] keeps the URL text the request was built
    from, [Header] is the header map, allocated in a request that
    [http.NewRequest] built and possibly nil in one built by hand, and
    [ReqBody] is [None] for a nil body. *)
Record Request := mkRequest {
  Method : string;
  URL : string;
  Header : option (gmap string (list string));
  ReqBody : option string;
}.

(** A response body, an [io.ReadCloser]: the bytes not read yet and
    whether [Close] has been called. *)
Record ReadCloser := mkReadCloser {
  unread : string;
  closed : bool;
}.

Definition Close (b : ReadCloser) : ReadCloser :=
  {| unread := unread b; closed := true |}.

(** A response as a transport returns it without error: the http package
    promises a body that is never nil. *)
Record Response := mkResponse {
  StatusCode : Z;
  Body : ReadCloser;
}.

(** [req.Header.Set(key, value)] on a request object: the request with
    the entry set, or [None] for the run-time panic of an assignment to
    an entry of a nil map. *)
Definition SetHeader (key value : string) (req : Request) : option Request :=
  match Header req with
  | None => None
  | Some entries =>
      Some {| Method := Method req;
              URL := URL req;
              Header := Some (Header_Set key value entries);
              ReqBody := ReqBody req |}
  end.

End http.

(** A Go [error], identified by the text its [Error()] method returns. *)
Definition error : Type := string.

(** *** encoding/json, [NewDecoder(r).Decode(&v)] *)
Module json.

(** One [Decode] call on a fresh decoder: the target variable after the
    call (it may be partly filled when the call fails), the error, and
    the number of bytes the decoder pulled from the reader. *)
Record Decoded (T : Type) := mkDecoded {
  target : T;
  err : option error;
  nread : nat;
}.
Arguments mkDecoded {T} _ _ _.
Arguments target {T} _.
Arguments err {T} _.
Arguments nread {T} _.

Class Decoder (T : Type) := decode : string -> Decoded T.

Fixpoint skip (n : nat) (s : string) : string :=
  match n, s with
  | O, _ => s
  | S _, EmptyString => EmptyString
  | S n', String _ s' => skip n' s'
  end.

Definition Decode {T : Type} `{Decoder T} (r : http.ReadCloser)
  : T * option error * http.ReadCloser :=
  let d := decode (http.unread r) in
  (target d, err d,
   {| http.unread := skip (nread d) (http.unread r); http.closed := http.closed r |}).

End json.

(** ** Data model *)

(** *** time: a [Time] as its distance from the zero Time. *)
Module time.
Definition Time : Type := Z.
End time.

Module BadgeTemplate.
Record t := mk {
  Id : string;
  Name : string;
  Skills : list string;
  Url : string;
  ImageUrl : string;
  VanitySlug : string;
}.
Definition zero : t := mk "" "" [] "" "" "".
End BadgeTemplate.

Module BadgeInfo.

Module Image.
Record t := mk { Url : string }.
End Image.

Module User.
Record t := mk {
  Id : string;
  Email : string;
  FirstName : string;
  LastName : string;
  Url : string;
}.
End User.

Record t := mk {
  Id : string;
  ImageUrl : string;
  Url : string;
  IssuedAt : time.Time;
  State : string;
  Image : Image.t;
  Template : BadgeTemplate.t;
  User : User.t;
}.

Definition zero : t :=
  mk "" "" "" 0 "" (Image.mk "") BadgeTemplate.zero (User.mk "" "" "" "" "").

End BadgeInfo.

(** The response envelopes. *)
Module issueBadgeResponse.
Record t := mk { Data : BadgeInfo.t }.
End issueBadgeResponse.

Module getBadgesResponse.
Record t := mk { Data : list BadgeInfo.t }.
End getBadgesResponse.

Module getBadgeTemplateResponse.
Record t := mk { Data : BadgeTemplate.t }.
End getBadgeTemplateResponse.

Module getBadgeTemplatesResponse.
Record t := mk { Data : list BadgeTemplate.t }.
End getBadgeTemplatesResponse.

(** [HTTPClientInterface]: the single method [Do], which hands back a
    response pointer and an error, either of which may be nil. *)
Definition HTTPClientInterface : Type :=
  http.Request -> option http.Response * option error.

Record Client := mkClient {
  HTTPClient : HTTPClientInterface;
  authToken : string;
  OrganizationId : string;
}.

Definition ErrBadgeAlreadyIssued : string := "User already has this badge".

(** What a call of a Go function of result type [(T, error)] gives its
    caller: the two results, or a run-time panic. *)
Inductive Outcome (T : Type) : Type :=
| Return (v : T) (err : option error)
| Panic.
Arguments Return {T} _ _.
Arguments Panic {T}.

(** A call of one resource operation together with its effects on the
    objects it shares with the transport: the request as the transport
    received it, and the response body as the call left it. *)
Record Call (T : Type) := mkCall {
  outcome : Outcome T;
  sent : option http.Request;
  body : option http.ReadCloser;
}.
Arguments mkCall {T} _ _ _.
Arguments outcome {T} _.
Arguments sent {T} _.
Arguments body {T} _.

(** A call of [Client.Do] together with its effects: the request object
    as the call left it, the calls it made of the transport's [Do], in
    order, each with the request as it was passed, and what it gave
    back. *)
Record Dispatch := mkDispatch {
  request : http.Request;
  calls : list http.Request;
  returned : Outcome (option http.Response);
}.

(** The collaborators the package takes from its platform: URL parsing
    inside [http.NewRequest], [json.Marshal] of the issuance parameters,
    the wall clock and its formatting, and the default [http.Client]. *)
Class Platform := {
  url_Parse : string -> option error;
  json_Marshal : gmap string string -> string + error;
  time_Now : time.Time;
  time_Format : time.Time -> string -> string;
  http_Client : HTTPClientInterface;
}.

(** ** The package *)

Section Credly.

Context `{Platform}.
Context `{!json.Decoder issueBadgeResponse.t, !json.Decoder getBadgesResponse.t,
          !json.Decoder getBadgeTemplateResponse.t,
          !json.Decoder getBadgeTemplatesResponse.t}.

(** [http.NewRequest]: the URL text is parsed, and a request with an
    empty, allocated header map is built.  The package passes only the
    literal methods GET and POST, which are always accepted. *)
Definition http_NewRequest (method url : string) (body : option string)
  : http.Request + error :=
  match url_Parse url with
  | Some err => inr err
  | None =>
      inl {| http.Method := method; http.URL := url;
             http.Header := Some ∅; http.ReqBody := body |}
  end.

(** [NewClient]: the token and the separator are encoded once. *)
Definition NewClient (token organizationId : string) : Client :=
  let encodedToken := base64.EncodeToString (token +:+ "|") in
  {| HTTPClient := http_Client;
     authToken := encodedToken;
     OrganizationId := organizationId |}.

(** [Client.Do]: the three [Header.Set] calls, each of which panics on a
    nil header map, then the one call of the client's transport, whose
    two results are returned as they are. *)
Definition Do (c : Client) (req : http.Request) : Dispatch :=
  match http.SetHeader "Authorization" ("Basic " +:+ authToken c) req with
  | None => mkDispatch req [] Panic
  | Some req =>
  match http.SetHeader "Content-Type" "application/json" req with
  | None => mkDispatch req [] Panic
  | Some req =>
  match http.SetHeader "Accept" "application/json" req with
  | None => mkDispatch req [] Panic
  | Some req =>
  let answer := HTTPClient c req in
  mkDispatch req [req] (Return answer.1 answer.2)
  end end end.

(** [defer resp.Body.Close()]: the rest of the function runs on the body,
    which is closed when the function returns, whatever the exit. *)
Definition defer_Close {T : Type} (b : http.ReadCloser)
    (rest : http.ReadCloser -> Outcome T * http.ReadCloser)
  : Outcome T * http.ReadCloser :=
  let done := rest b in (done.1, http.Close done.2).

Definition IssueBadge (c : Client) (templateId email firstName lastName : string)
  : Call BadgeInfo.t :=
  let i := BadgeInfo.zero in
  let url := "https://api.credly.com/v1/organizations/" +:+ OrganizationId c +:+ "/badges" in
  let now := time_Now in
  let issuedAt := time_Format now "2006-01-02 15:04:05 -0700" in
  let params : gmap string string :=
    <["issued_at" := issuedAt]>
      (<["issued_to_last_name" := lastName]>
         (<["issued_to_first_name" := firstName]>
            (<["recipient_email" := email]>
               (<["badge_template_id" := templateId]> ∅)))) in
  match json_Marshal params with
  | inr err =>
      mkCall (Return i (Some ("[credly.IssueBadge] Failed to marshal parameters: " +:+ err)))
        None None
  | inl reqBody =>
  match http_NewRequest "POST" url (Some reqBody) with
  | inr err => mkCall (Return i (Some err)) None None
  | inl req =>
  let d := Do c req in
  match returned d with
  | Panic => mkCall Panic (head (calls d)) None
  | Return resp err =>
  match err with
  | Some err => mkCall (Return i (Some err)) (head (calls d)) (http.Body <$> resp)
  | None =>
  match resp with
  | None => mkCall Panic (head (calls d)) None
  | Some resp =>
  let done :=
    defer_Close (http.Body resp) (fun body =>
      if http.StatusCode resp =? http.StatusUnprocessableEntity then
        (Return i (Some ErrBadgeAlreadyIssued), body)
      else if negb (http.StatusCode resp =? http.StatusCreated) then
        (Return i (Some ("[credly.IssueBadge] API request failed with status code: "
                           +:+ fmt.d (http.StatusCode resp))), body)
      else
        let '(badgeResp, err, body) := json.Decode body in
        match err with
        | Some err =>
            (Return i (Some ("[credly.IssueBadge] Failed to parse JSON data: " +:+ err)), body)
        | None => (Return (issueBadgeResponse.Data badgeResp) None, body)
        end) in
  mkCall done.1 (head (calls d)) (Some done.2)
  end end end end end.

Definition GetBadges (c : Client) (email : string) (collections : list string)
  : Call (list BadgeInfo.t) :=
  let b : list BadgeInfo.t := [] in
  let qUrl := "https://api.credly.com/v1/organizations/" +:+ OrganizationId c +:+ "/badges" in
  let qUrl := qUrl +:+ "?filter=recipient_email_all::" +:+ url.QueryEscape email in
  let qUrl :=
    if (0 <? length collections)%nat then
      let colFilter := "|badge_templates[reporting_tags]::" +:+ strings.Join collections "," in
      qUrl +:+ url.QueryEscape colFilter
    else qUrl in
  match http_NewRequest "GET" qUrl None with
  | inr err => mkCall (Return b (Some err)) None None
  | inl req =>
  let d := Do c req in
  match returned d with
  | Panic => mkCall Panic (head (calls d)) None
  | Return resp err =>
  match err with
  | Some err => mkCall (Return b (Some err)) (head (calls d)) (http.Body <$> resp)
  | None =>
  match resp with
  | None => mkCall Panic (head (calls d)) None
  | Some resp =>
  let done :=
    defer_Close (http.Body resp) (fun body =>
      if negb (http.StatusCode resp =? http.StatusOK) then
        (Return b (Some ("[credly.GetBadges] API request failed with status code: "
                           +:+ fmt.d (http.StatusCode resp))), body)
      else
        let '(badgesResp, err, body) := json.Decode body in
        match err with
        | Some err =>
            (Return b (Some ("[credly.GetBadges] Failed to parse JSON data: " +:+ err)), body)
        | None => (Return (getBadgesResponse.Data badgesResp) None, body)
        end) in
  mkCall done.1 (head (calls d)) (Some done.2)
  end end end end.

Definition GetBadge (c : Client) (email badgeId : string) : Call BadgeInfo.t :=
  let b := BadgeInfo.zero in
  let url := "https://api.credly.com/v1/organizations/" +:+ OrganizationId c +:+ "/badges" in
  let url := url +:+ "?filter=recipient_email_all::" +:+ email
                 +:+ "|badge_template_id::" +:+ badgeId in
  match http_NewRequest "GET" url None with
  | inr err => mkCall (Return b (Some err)) None None
  | inl req =>
  let d := Do c req in
  match returned d with
  | Panic => mkCall Panic (head (calls d)) None
  | Return resp err =>
  match err with
  | Some err => mkCall (Return b (Some err)) (head (calls d)) (http.Body <$> resp)
  | None =>
  match resp with
  | None => mkCall Panic (head (calls d)) None
  | Some resp =>
  let done :=
    defer_Close (http.Body resp) (fun body =>
      let '(badgesResp, err, body) := json.Decode body in
      match err with
      | Some err => (Return b (Some ("Failed to parse JSON data: " +:+ err)), body)
      | None =>
          match getBadgesResponse.Data badgesResp with
          | [] => (Return b None, body)
          | first :: _ => (Return first None, body)
          end
      end) in
  mkCall done.1 (head (calls d)) (Some done.2)
  end end end end.

Definition GetBadgeTemplate (c : Client) (templateId : string) : Call BadgeTemplate.t :=
  let b := BadgeTemplate.zero in
  let url := "https://api.credly.com/v1/organizations/" +:+ OrganizationId c
               +:+ "/badge_templates/" +:+ templateId in
  match http_NewRequest "GET" url None with
  | inr err => mkCall (Return b (Some err)) None None
  | inl req =>
  let d := Do c req in
  match returned d with
  | Panic => mkCall Panic (head (calls d)) None
  | Return resp err =>
  match err with
  | Some err => mkCall (Return b (Some err)) (head (calls d)) (http.Body <$> resp)
  | None =>
  match resp with
  | None => mkCall Panic (head (calls d)) None
  | Some resp =>
  let done :=
    defer_Close (http.Body resp) (fun body =>
      if negb (http.StatusCode resp =? http.StatusOK) then
        (Return b (Some ("[credly.GetBadgeTemplate] API request failed with status code: "
                           +:+ fmt.d (http.StatusCode resp))), body)
      else
        let '(badgeResp, err, body) := json.Decode body in
        match err with
        | Some err =>
            (Return b (Some ("[credly.GetBadgeTemplate] Failed to parse JSON data: " +:+ err)),
             body)
        | None => (Return (getBadgeTemplateResponse.Data badgeResp) None, body)
        end) in
  mkCall done.1 (head (calls d)) (Some done.2)
  end end end end.

Definition GetBadgeTemplates (c : Client) : Call (list BadgeTemplate.t) :=
  let b : list BadgeTemplate.t := [] in
  let url := "https://api.credly.com/v1/organizations/" +:+ OrganizationId c
               +:+ "/badge_templates" in
  match http_NewRequest "GET" url None with
  | inr err => mkCall (Return b (Some err)) None None
  | inl req =>
  let d := Do c req in
  match returned d with
  | Panic => mkCall Panic (head (calls d)) None
  | Return resp err =>
  match err with
  | Some err => mkCall (Return b (Some err)) (head (calls d)) (http.Body <$> resp)
  | None =>
  match resp with
  | None => mkCall Panic (head (calls d)) None
  | Some resp =>
  let done :=
    defer_Close (http.Body resp) (fun body =>
      if negb (http.StatusCode resp =? http.StatusOK) then
        (Return b (Some ("[credly.GetBadgeTemplates] API request failed with status code: "
                           +:+ fmt.d (http.StatusCode resp))), body)
      else
        let '(badgeResp, err, body) := json.Decode body in
        match err with
        | Some err =>
            (Return b (Some ("[credly.GetBadgeTemplates] Failed to parse JSON data: " +:+ err)),
             body)
        | None => (Return (getBadgeTemplatesResponse.Data badgeResp) None, body)
        end) in
  mkCall done.1 (head (calls d)) (Some done.2)
  end end end end.

End Credly.

(** ** The five operations as one type

    Properties that hold of every operation are stated once, over the
    operation and its arguments. *)

Inductive operation : Type :=
| OpIssueBadge (templateId email firstName lastName : string)
| OpGetBadges (email : string) (collections : list string)
| OpGetBadge (email badgeId : string)
| OpGetBadgeTemplate (templateId : string)
| OpGetBadgeTemplates.

Inductive result : Type :=
| RBadge (b : BadgeInfo.t)
| RBadges (bs : list BadgeInfo.t)
| RTemplate (t : BadgeTemplate.t)
| RTemplates (ts : list BadgeTemplate.t).

Definition Outcome_map {A B : Type} (f : A -> B) (o : Outcome A) : Outcome B :=
  match o with
  | Return v err => Return (f v) err
  | Panic => Panic
  end.

Definition Call_map {A B : Type} (f : A -> B) (c : Call A) : Call B :=
  mkCall (Outcome_map f (outcome c)) (sent c) (body c).

(** The zero value of the operation's result type. *)
Definition zero_result (o : operation) : result :=
  match o with
  | OpIssueBadge _ _ _ _ => RBadge BadgeInfo.zero
  | OpGetBadges _ _ => RBadges []
  | OpGetBadge _ _ => RBadge BadgeInfo.zero
  | OpGetBadgeTemplate _ => RTemplate BadgeTemplate.zero
  | OpGetBadgeTemplates => RTemplates []
  end.

Definition operation_name (o : operation) : string :=
  match o with
  | OpIssueBadge _ _ _ _ => "IssueBadge"
  | OpGetBadges _ _ => "GetBadges"
  | OpGetBadge _ _ => "GetBadge"
  | OpGetBadgeTemplate _ => "GetBadgeTemplate"
  | OpGetBadgeTemplates => "GetBadgeTemplates"
  end.

Section Run.

Context `{Platform}.
Context `{!json.Decoder issueBadgeResponse.t, !json.Decoder getBadgesResponse.t,
          !json.Decoder getBadgeTemplateResponse.t,
          !json.Decoder getBadgeTemplatesResponse.t}.

Definition run (c : Client) (o : operation) : Call result :=
  match o with
  | OpIssueBadge templateId email firstName lastName =>
      Call_map RBadge (IssueBadge c templateId email firstName lastName)
  | OpGetBadges email collections => Call_map RBadges (GetBadges c email collections)
  | OpGetBadge email badgeId => Call_map RBadge (GetBadge c email badgeId)
  | OpGetBadgeTemplate templateId => Call_map RTemplate (GetBadgeTemplate c templateId)
  | OpGetBadgeTemplates => Call_map RTemplates (GetBadgeTemplates c)
  end.

(** What the operation's decoder makes of a body, as the operation's
    result: the envelope's data, and for [GetBadge] the first badge of the
    list or the zero badge. *)
Definition decoded (o : operation) (s : string) : json.Decoded result :=
  match o with
  | OpIssueBadge _ _ _ _ =>
      let d : json.Decoded issueBadgeResponse.t := json.decode s in
      json.mkDecoded (RBadge (issueBadgeResponse.Data (json.target d)))
        (json.err d) (json.nread d)
  | OpGetBadges _ _ =>
      let d : json.Decoded getBadgesResponse.t := json.decode s in
      json.mkDecoded (RBadges (getBadgesResponse.Data (json.target d)))
        (json.err d) (json.nread d)
  | OpGetBadge _ _ =>
      let d : json.Decoded getBadgesResponse.t := json.decode s in
      json.mkDecoded (RBadge (hd BadgeInfo.zero (getBadgesResponse.Data (json.target d))))
        (json.err d) (json.nread d)
  | OpGetBadgeTemplate _ =>
      let d : json.Decoded getBadgeTemplateResponse.t := json.decode s in
      json.mkDecoded (RTemplate (getBadgeTemplateResponse.Data (json.target d)))
        (json.err d) (json.nread d)
  | OpGetBadgeTemplates =>
      let d : json.Decoded getBadgeTemplatesResponse.t := json.decode s in
      json.mkDecoded (RTemplates (getBadgeTemplatesResponse.Data (json.target d)))
        (json.err d) (json.nread d)
  end.

End Run.

(** The status code the operation requires before it decodes the body;
    [GetBadge] requires none. *)
Definition success_status (o : operation) : option Z :=
  match o with
  | OpIssueBadge _ _ _ _ => Some http.StatusCreated
  | OpGetBadges _ _ => Some http.StatusOK
  | OpGetBadge _ _ => None
  | OpGetBadgeTemplate _ => Some http.StatusOK
  | OpGetBadgeTemplates => Some http.StatusOK
  end.

Definition decodes (o : operation) (code : Z) : bool :=
  match success_status o with
  | Some s => code =? s
  | None => true
  end.

(** The text the operation puts before the parse error when decoding
    fails. *)
Definition decode_failure_prefix (o : operation) : string :=
  match o with
  | OpGetBadge _ _ => "Failed to parse JSON data: "
  | _ => "[credly." +:+ operation_name o +:+ "] Failed to parse JSON data: "
  end.

(** ** The doubles of the package's tests *)

(** [MockHTTPClient] with one expectation: any request gets the fixed
    response and error. *)
Definition MockHTTPClient (resp : option http.Response) (err : option error)
  : HTTPClientInterface :=
  fun _ => (resp, err).

(** The client whose transport answers as that of [c] does, except that
    every response carries the status [code]. *)
Definition withStatus (code : Z) (c : Client) : Client :=
  {| HTTPClient := fun req =>
       let '(resp, err) := HTTPClient c req in
       ((fun r => http.mkResponse code (http.Body r)) <$> resp, err);
     authToken := authToken c;
     OrganizationId := OrganizationId c |}.

(** A response body nothing has read or closed yet. *)
Definition newBody (s : string) : http.ReadCloser :=
  {| http.unread := s; http.closed := false |}.

Definition test_platform : Platform :=
  {| url_Parse := fun _ => None;
     json_Marshal := fun _ => inl "{}";
     time_Now := 0;
     time_Format := fun _ layout => layout;
     http_Client := MockHTTPClient None (Some "dial tcp: connection refused") |}.

(** A stand-in decoder, reading the whole body: the empty object leaves
    the target at its zero value; any other body that opens an object
    decodes to [value]; the empty body gives EOF; anything else is a
    syntax error, with [partial] left in the target. *)
Definition test_decoder {T : Type} (zero value partial : T) : json.Decoder T :=
  fun s =>
    if String.eqb s "{}" then json.mkDecoded zero None 2%nat
    else if strings.HasPrefix s "{" then json.mkDecoded value None (String.length s)
    else if String.eqb s "" then json.mkDecoded zero (Some "EOF") 0%nat
    else json.mkDecoded partial
           (Some "invalid character 'o' in literal null (expecting 'u')")
           (String.length s).

Definition test_badge : BadgeInfo.t :=
  BadgeInfo.mk "badge-123" "http://image.url" "http://badge.url" 0 "issued"
    (BadgeInfo.Image.mk "") BadgeTemplate.zero (BadgeInfo.User.mk "" "" "" "" "").

Definition test_badge2 : BadgeInfo.t :=
  BadgeInfo.mk "badge-456" "http://image2.url" "http://badge2.url" 0 ""
    (BadgeInfo.Image.mk "") BadgeTemplate.zero (BadgeInfo.User.mk "" "" "" "" "").

Definition test_template : BadgeTemplate.t :=
  BadgeTemplate.mk "template-123" "Test Badge" [] "" "http://image.url" "".

Definition test_issueBadge_decoder : json.Decoder issueBadgeResponse.t :=
  test_decoder (issueBadgeResponse.mk BadgeInfo.zero)
    (issueBadgeResponse.mk test_badge) (issueBadgeResponse.mk test_badge2).

Definition test_getBadges_decoder : json.Decoder getBadgesResponse.t :=
  test_decoder (getBadgesResponse.mk [])
    (getBadgesResponse.mk [test_badge; test_badge2]) (getBadgesResponse.mk [test_badge]).

Definition test_getBadgeTemplate_decoder : json.Decoder getBadgeTemplateResponse.t :=
  test_decoder (getBadgeTemplateResponse.mk BadgeTemplate.zero)
    (getBadgeTemplateResponse.mk test_template) (getBadgeTemplateResponse.mk test_template).

Definition test_getBadgeTemplates_decoder : json.Decoder getBadgeTemplatesResponse.t :=
  test_decoder (getBadgeTemplatesResponse.mk [])
    (getBadgeTemplatesResponse.mk [test_template]) (getBadgeTemplatesResponse.mk [test_template]).

(** The client the tests build: a mock transport and the token of
    "test-token". *)
Definition test_client (status : Z) (payload : string) : Client :=
  {| HTTPClient :=
       MockHTTPClient (Some (http.mkResponse status (newBody payload))) None;
     authToken := base64.EncodeToString ("test-token" +:+ "|");
     OrganizationId := "abcd-efgh-1234-5678" |}.

(** The test runs of the operations. *)
Definition test_run (status : Z) (payload : string) (o : operation) : Call result :=
  @run test_platform test_issueBadge_decoder test_getBadges_decoder
    test_getBadgeTemplate_decoder test_getBadgeTemplates_decoder
    (test_client status payload) o.

(** ** Character classes of the encoded texts *)

(** Every character of [s] satisfies [p]. *)
Fixpoint all_chars (p : ascii -> bool) (s : string) : bool :=
  match s with
  | EmptyString => true
  | String ch s' => p ch && all_chars p s'
  end.

(** A digit of the standard Base64 alphabet, or the padding character. *)
Definition base64_char (ch : ascii) : bool :=
  existsb (Ascii.eqb ch) (list_ascii_of_string base64.encodeStd)
  || Ascii.eqb ch base64.StdPadding.

(** A character [url.QueryEscape] lets through, or one it writes: the
    percent sign of an escape and the plus sign of a space. *)
Definition query_char (ch : ascii) : bool :=
  negb (url.shouldEscape ch) || Ascii.eqb ch "%" || Ascii.eqb ch "+".

(** A character [url.QueryEscape] leaves as it is. *)
Definition unreserved (ch : ascii) : bool := negb (url.shouldEscape ch).

(** ** A platform whose URL parser refuses control characters

    [url.Parse] rejects a URL that holds an ASCII control character;
    this platform does so and is otherwise the one of the tests. *)



(** ** Proof support *)

(** The operation at hand dispatched request [r] and the transport
    answered it with a response and no error: the tactic runs the
    operation up to that point, leaving the code after the dispatch. *)
Ltac dispatched Hsent Htr :=
  repeat match type of Hsent with
    | context [match json_Marshal ?p with _ => _ end] =>
        destruct (json_Marshal p); [| discriminate Hsent]
    | context [match url_Parse ?u with _ => _ end] =>
        destruct (url_Parse u); [discriminate Hsent |]
    end;
  unfold Do, http.SetHeader in *;
  cbn [http.Header http.Method http.URL http.ReqBody request calls returned head] in *;
  match type of Hsent with
  | context [HTTPClient ?c ?x] =>
      let X := fresh "req" in
      let E := fresh "E" in
      set (X := x) in *;
      destruct (HTTPClient c X) as [[?|] [?|]] eqn:E;
      cbn [fst snd sent outcome body] in Hsent;
      injection Hsent as <-;
      rewrite E in Htr; try discriminate Htr;
      injection Htr as ->
  end.

(** ** Facts about the string collaborators *)

Lemma HasPrefix_app (sub q : string) : strings.HasPrefix (sub +:+ q) sub = true.
Proof.
  induction sub as [|ch sub IH]; simpl.
  - by destruct q.
  - by rewrite Ascii.eqb_refl, IH.
Qed.

Lemma Contains_cons (ch : ascii) (s sub : string) :
  strings.Contains s sub = true -> strings.Contains (String ch s) sub = true.
Proof.
  intros Hs. cbn [strings.Contains]. rewrite Hs. apply orb_true_r.
Qed.

Lemma Contains_app (p sub q : string) :
  strings.Contains (p +:+ sub +:+ q) sub = true.
Proof.
  induction p as [|ch p IH].
  - change ("" +:+ sub +:+ q) with (sub +:+ q).
    destruct (sub +:+ q) eqn:E; cbn [strings.Contains];
      rewrite <- E, HasPrefix_app; reflexivity.
  - change (String ch p +:+ sub +:+ q) with (String ch (p +:+ sub +:+ q)).
    by apply Contains_cons.
Qed.

Lemma append_empty_r (s : string) : s +:+ "" = s.
Proof.
  induction s as [|ch s IH]; [done |].
  change (String ch s +:+ "") with (String ch (s +:+ "")). by rewrite IH.
Qed.

Lemma Contains_suffix (p sub : string) : strings.Contains (p +:+ sub) sub = true.
Proof.
  rewrite <- (append_empty_r sub) at 1. apply Contains_app.
Qed.

Lemma QueryEscape_app (a b : string) :
  url.QueryEscape (a +:+ b) = url.QueryEscape a +:+ url.QueryEscape b.
Proof.
  induction a as [|ch a IH]; [done |].
  change (String ch a +:+ b) with (String ch (a +:+ b)).
  cbn [url.QueryEscape]. rewrite IH.
  destruct (url.shouldEscape ch); [destruct (Ascii.eqb ch " ") |]; reflexivity.
Qed.

(** ** The authenticated dispatcher *)

(** A header map with the three entries of the dispatcher set. *)
Lemma Header_Set_three (token : string) (h : gmap string (list string)) :
  let h' := http.Header_Set "Accept" "application/json"
              (http.Header_Set "Content-Type" "application/json"
                 (http.Header_Set "Authorization" token h)) in
  h' !! "Authorization" = Some [token] ∧
  h' !! "Content-Type" = Some ["application/json"] ∧
  h' !! "Accept" = Some ["application/json"] ∧
  dom h' = {["Authorization"; "Content-Type"; "Accept"]} ∪ dom h ∧
  delete "Accept" (delete "Content-Type" (delete "Authorization" h')) =
    delete "Accept" (delete "Content-Type" (delete "Authorization" h)).
Proof.
  unfold http.Header_Set. repeat split.
  - rewrite !lookup_insert. repeat case_decide; congruence.
  - rewrite !lookup_insert. repeat case_decide; congruence.
  - rewrite !lookup_insert. repeat case_decide; congruence.
  - rewrite !dom_insert_L. apply set_eq; intros k.
    rewrite !elem_of_union, !elem_of_singleton. tauto.
  - apply map_eq; intros k. rewrite !lookup_delete, !lookup_insert.
    repeat case_decide; congruence.
Qed.

(** [Client.Do] on a request whose header map is allocated. *)
Lemma Do_allocated (c : Client) (req : http.Request) (h : gmap string (list string)) :
  http.Header req = Some h ->
  let req' :=
    {| http.Method := http.Method req;
       http.URL := http.URL req;
       http.Header :=
         Some (http.Header_Set "Accept" "application/json"
                 (http.Header_Set "Content-Type" "application/json"
                    (http.Header_Set "Authorization" ("Basic " +:+ authToken c) h)));
       http.ReqBody := http.ReqBody req |} in
  Do c req =
    mkDispatch req' [req'] (Return (HTTPClient c req').1 (HTTPClient c req').2).
Proof.
  intros Hh. unfold Do, http.SetHeader. rewrite Hh.
  cbn [http.Header http.Method http.URL http.ReqBody]. reflexivity.
Qed.

(** C1. On a request whose header map is allocated, [Client.Do] sets the
    three headers Authorization ("Basic " and the stored token),
    Content-Type and Accept (both "application/json") and no other: the
    headers present afterwards are these three and those the request
    already had, whose values are kept, so a request fresh from
    [http.NewRequest] carries exactly the three.  Method, URL and body are
    unchanged.  The transport is called once, with that request, and the
    response and the error it returned are what [Do] returns; there is no
    second call and nothing is looked at in the response. *)
Theorem C1_Do_sets_three_headers_and_forwards
    (c : Client) (req : http.Request) (h : gmap string (list string)) :
  http.Header req = Some h ->
  let req' := request (Do c req) in
  http.Header req' !! "Authorization" = Some ["Basic " +:+ authToken c] ∧
  http.Header req' !! "Content-Type" = Some ["application/json"] ∧
  http.Header req' !! "Accept" = Some ["application/json"] ∧
  (∃ h' : gmap string (list string),
     http.Header req' = Some h' ∧
     dom h' = {["Authorization"; "Content-Type"; "Accept"]} ∪ dom h ∧
     delete "Accept" (delete "Content-Type" (delete "Authorization" h')) =
       delete "Accept" (delete "Content-Type" (delete "Authorization" h))) ∧
  http.Method req' = http.Method req ∧
  http.URL req' = http.URL req ∧
  http.ReqBody req' = http.ReqBody req ∧
  calls (Do c req) = [req'] ∧
  returned (Do c req) = Return (HTTPClient c req').1 (HTTPClient c req').2.
Proof.
  intros Hh req'. subst req'.
  rewrite (Do_allocated c req h Hh). cbn [request calls returned http.Header
    http.Method http.URL http.ReqBody].
  destruct (Header_Set_three ("Basic " +:+ authToken c) h)
    as (Hauth & Hct & Haccept & Hdom & Hframe).
  split; [exact Hauth |]. split; [exact Hct |]. split; [exact Haccept |].
  split; [eexists; split; [reflexivity | split; [exact Hdom | exact Hframe]] |].
  repeat split.
Qed.

(** ** The resource operations *)

Section Operations.

Context `{Platform}.
Context `{!json.Decoder issueBadgeResponse.t, !json.Decoder getBadgesResponse.t,
          !json.Decoder getBadgeTemplateResponse.t,
          !json.Decoder getBadgeTemplatesResponse.t}.

(** C3. [IssueBadge] on a response: status 201 has the body decoded as
    the envelope and its badge returned with a nil error; status 422 is
    answered first and never reaches the generic branch; any other status
    gives the zero badge with an error that contains "API request failed"
    and the status code in decimal. *)
Theorem C3_IssueBadge_status_handling
    (c : Client) (templateId email firstName lastName : string)
    (r : http.Request) (resp : http.Response) :
  sent (IssueBadge c templateId email firstName lastName) = Some r ->
  HTTPClient c r = (Some resp, None) ->
  let code := http.StatusCode resp in
  let d : json.Decoded issueBadgeResponse.t :=
    json.decode (http.unread (http.Body resp)) in
  let out := outcome (IssueBadge c templateId email firstName lastName) in
  let e := "[credly.IssueBadge] API request failed with status code: " +:+ fmt.d code in
  (code = 201 -> json.err d = None ->
     out = Return (issueBadgeResponse.Data (json.target d)) None) ∧
  (code = 422 ->
     out = Return BadgeInfo.zero (Some ErrBadgeAlreadyIssued) ∧ ErrBadgeAlreadyIssued ≠ e) ∧
  (code ≠ 201 -> code ≠ 422 ->
     out = Return BadgeInfo.zero (Some e) ∧
     strings.Contains e "API request failed" = true ∧
     strings.Contains e (fmt.d code) = true).
Proof.
  intros Hsent Htr code d out e. subst out.
  unfold IssueBadge, http_NewRequest, Do in *.
  dispatched Hsent Htr.
  cbn [sent outcome body defer_Close fst snd]. fold code.
  split; [| split].
  - intros -> Hd. cbn [Z.eqb Pos.eqb negb http.StatusCreated
      http.StatusUnprocessableEntity].
    unfold json.Decode. fold d. by rewrite Hd.
  - intros ->. split; [done | discriminate].
  - intros H201 H422. split; [| split].
    + destruct (Z.eqb_spec code http.StatusUnprocessableEntity); [done |].
      destruct (Z.eqb_spec code http.StatusCreated); done.
    + apply (Contains_app "[credly.IssueBadge] " "API request failed"
               (" with status code: " +:+ fmt.d code)).
    + apply Contains_suffix.
Qed.

(** C4. [IssueBadge] on a response of status 422, whatever its body:
    the zero badge and an error whose text is exactly "User already has
    this badge", which is not the text of any generic failure. *)
Theorem C4_IssueBadge_already_issued
    (c : Client) (templateId email firstName lastName : string)
    (r : http.Request) (resp : http.Response) :
  sent (IssueBadge c templateId email firstName lastName) = Some r ->
  HTTPClient c r = (Some resp, None) ->
  http.StatusCode resp = 422 ->
  outcome (IssueBadge c templateId email firstName lastName) =
    Return BadgeInfo.zero (Some "User already has this badge") ∧
  ErrBadgeAlreadyIssued = "User already has this badge" ∧
  ∀ code : Z,
    "User already has this badge" ≠
    "[credly.IssueBadge] API request failed with status code: " +:+ fmt.d code.
Proof.
  intros Hsent Htr Hcode.
  unfold IssueBadge, http_NewRequest, Do in *.
  dispatched Hsent Htr.
  cbn [sent outcome body defer_Close fst snd]. rewrite Hcode.
  split; [done |]. split; [done |]. intros code. discriminate.
Qed.

Lemma QueryEscape_step (ch : ascii) (rest : string) :
  strings.Contains (url.QueryEscape (String ch rest)) "|" =
  strings.Contains (url.QueryEscape rest) "|".
Proof.
  destruct ch as [[] [] [] [] [] [] [] []]; reflexivity.
Qed.

Lemma QueryEscape_no_pipe (s : string) :
  strings.Contains (url.QueryEscape s) "|" = false.
Proof.
  induction s as [|ch s IH]; [reflexivity |]. by rewrite QueryEscape_step.
Qed.

(** C5. The URL [GetBadges] requests: the badges path, the email filter
    with the email escaped and, when there are collections, the escaping
    of the one string made of the pipe, the collection filter name and the
    comma-joined collections, in which the pipe appears escaped; with no
    collections, the email filter alone. *)
Theorem C5_GetBadges_url
    (c : Client) (email : string) (collections : list string) (r : http.Request) :
  sent (GetBadges c email collections) = Some r ->
  let badges := "https://api.credly.com/v1/organizations/" +:+ OrganizationId c +:+ "/badges" in
  let emailFilter := "?filter=recipient_email_all::" +:+ url.QueryEscape email in
  let colFilter := "|badge_templates[reporting_tags]::" +:+ strings.Join collections "," in
  (collections ≠ [] ->
     http.URL r = (badges +:+ emailFilter) +:+ url.QueryEscape colFilter ∧
     url.QueryEscape colFilter =
       "%7Cbadge_templates%5Breporting_tags%5D%3A%3A"
         +:+ url.QueryEscape (strings.Join collections ",") ∧
     strings.Contains (url.QueryEscape colFilter) "|" = false) ∧
  (collections = [] -> http.URL r = badges +:+ emailFilter).
Proof.
  intros Hsent badges emailFilter colFilter.
  assert (http.URL r =
            if (0 <? length collections)%nat
            then (badges +:+ emailFilter) +:+ url.QueryEscape colFilter
            else badges +:+ emailFilter) as HURL.
  { unfold GetBadges, http_NewRequest, Do, http.SetHeader in Hsent.
    destruct (url_Parse _); [discriminate Hsent |].
    cbn [http.Header http.Method http.URL http.ReqBody request calls returned head]
      in Hsent.
    destruct (HTTPClient _ _) as [[?|] [?|]];
      cbn [fst snd sent] in Hsent; injection Hsent as <-; reflexivity. }
  split.
  - intros Hne. destruct collections as [|col cols]; [done |].
    split; [exact HURL | split].
    + unfold colFilter. by rewrite QueryEscape_app.
    + apply QueryEscape_no_pipe.
  - intros ->. exact HURL.
Qed.

(** C6. [GetBadge] requests the badges path with the email and the badge
    id put into the filter as they are, and reads the answer whatever its
    status code: when the body decodes, the first badge of the list is
    returned, and the zero badge with a nil error when the list is
    empty. *)
Theorem C6_GetBadge_first_or_zero
    (c : Client) (email badgeId : string) (r : http.Request) (resp : http.Response) :
  sent (GetBadge c email badgeId) = Some r ->
  HTTPClient c r = (Some resp, None) ->
  let badges := "https://api.credly.com/v1/organizations/" +:+ OrganizationId c +:+ "/badges" in
  let d : json.Decoded getBadgesResponse.t :=
    json.decode (http.unread (http.Body resp)) in
  let out := outcome (GetBadge c email badgeId) in
  http.URL r =
    badges +:+ "?filter=recipient_email_all::" +:+ email
           +:+ "|badge_template_id::" +:+ badgeId ∧
  (json.err d = None ->
     out = Return (hd BadgeInfo.zero (getBadgesResponse.Data (json.target d))) None) ∧
  (json.err d = None -> getBadgesResponse.Data (json.target d) = [] ->
     out = Return BadgeInfo.zero None).
Proof.
  intros Hsent Htr badges d out. subst out.
  unfold GetBadge, http_NewRequest, Do in *.
  dispatched Hsent Htr.
  cbn [sent outcome body defer_Close fst snd]. unfold json.Decode. fold d.
  split; [reflexivity |]. split.
  - intros ->. by destruct (getBadgesResponse.Data (json.target d)).
  - by intros -> ->.
Qed.

(** X14. [GetBadge] never looks at the status code: with a transport
    that puts any other status on every response, the whole call, its
    result, the request sent and the state of the body, is the same. *)
Lemma GetBadge_ignores_status (c : Client) (email badgeId : string) (code : Z) :
  GetBadge (withStatus code c) email badgeId = GetBadge c email badgeId.
Proof.
  unfold GetBadge, http_NewRequest, Do, http.SetHeader, withStatus;
    cbn [HTTPClient authToken OrganizationId].
  destruct (url_Parse _); [reflexivity |].
  cbn [http.Header http.Method http.URL http.ReqBody request calls returned head].
  destruct (HTTPClient c _) as [[resp|] [e|]]; reflexivity.
Qed.

(** C8. The reads that check the status ([GetBadges],
    [GetBadgeTemplate], [GetBadgeTemplates]): on status 200 the body is
    decoded as the operation's envelope and its record or list is returned
    as decoded, with a nil error; on any other status the result is the
    zero value and the error carries the status code. *)
Theorem C8_reads_check_status_200 :
  (∀ (c : Client) (email : string) (collections : list string)
     (r : http.Request) (resp : http.Response),
     sent (GetBadges c email collections) = Some r ->
     HTTPClient c r = (Some resp, None) ->
     let code := http.StatusCode resp in
     let d : json.Decoded getBadgesResponse.t :=
       json.decode (http.unread (http.Body resp)) in
     let e := "[credly.GetBadges] API request failed with status code: " +:+ fmt.d code in
     (code = 200 -> json.err d = None ->
        outcome (GetBadges c email collections) =
          Return (getBadgesResponse.Data (json.target d)) None) ∧
     (code ≠ 200 ->
        outcome (GetBadges c email collections) = Return [] (Some e) ∧
        strings.Contains e (fmt.d code) = true)) ∧
  (∀ (c : Client) (templateId : string) (r : http.Request) (resp : http.Response),
     sent (GetBadgeTemplate c templateId) = Some r ->
     HTTPClient c r = (Some resp, None) ->
     let code := http.StatusCode resp in
     let d : json.Decoded getBadgeTemplateResponse.t :=
       json.decode (http.unread (http.Body resp)) in
     let e := "[credly.GetBadgeTemplate] API request failed with status code: "
                +:+ fmt.d code in
     (code = 200 -> json.err d = None ->
        outcome (GetBadgeTemplate c templateId) =
          Return (getBadgeTemplateResponse.Data (json.target d)) None) ∧
     (code ≠ 200 ->
        outcome (GetBadgeTemplate c templateId) = Return BadgeTemplate.zero (Some e) ∧
        strings.Contains e (fmt.d code) = true)) ∧
  (∀ (c : Client) (r : http.Request) (resp : http.Response),
     sent (GetBadgeTemplates c) = Some r ->
     HTTPClient c r = (Some resp, None) ->
     let code := http.StatusCode resp in
     let d : json.Decoded getBadgeTemplatesResponse.t :=
       json.decode (http.unread (http.Body resp)) in
     let e := "[credly.GetBadgeTemplates] API request failed with status code: "
                +:+ fmt.d code in
     (code = 200 -> json.err d = None ->
        outcome (GetBadgeTemplates c) =
          Return (getBadgeTemplatesResponse.Data (json.target d)) None) ∧
     (code ≠ 200 ->
        outcome (GetBadgeTemplates c) = Return [] (Some e) ∧
        strings.Contains e (fmt.d code) = true)).
Proof.
  split; [| split].
  - intros c email collections r resp Hsent Htr code d e.
    unfold GetBadges, http_NewRequest, Do in *.
    dispatched Hsent Htr.
    cbn [sent outcome body defer_Close fst snd]. fold code. split.
    + intros -> Hd. unfold json.Decode. fold d. by rewrite Hd.
    + intros Hne. split; [| apply Contains_suffix].
      by destruct (Z.eqb_spec code http.StatusOK).
  - intros c templateId r resp Hsent Htr code d e.
    unfold GetBadgeTemplate, http_NewRequest, Do in *.
    dispatched Hsent Htr.
    cbn [sent outcome body defer_Close fst snd]. fold code. split.
    + intros -> Hd. unfold json.Decode. fold d. by rewrite Hd.
    + intros Hne. split; [| apply Contains_suffix].
      by destruct (Z.eqb_spec code http.StatusOK).
  - intros c r resp Hsent Htr code d e.
    unfold GetBadgeTemplates, http_NewRequest, Do in *.
    dispatched Hsent Htr.
    cbn [sent outcome body defer_Close fst snd]. fold code. split.
    + intros -> Hd. unfold json.Decode. fold d. by rewrite Hd.
    + intros Hne. split; [| apply Contains_suffix].
      by destruct (Z.eqb_spec code http.StatusOK).
Qed.

(** Every request an operation dispatches carries the client's stored
    token in its Authorization header. *)
Lemma run_sends_stored_token (c : Client) (o : operation) (r : http.Request) :
  sent (run c o) = Some r ->
  http.Header r !! "Authorization" = Some ["Basic " +:+ authToken c].
Proof.
  destruct o; cbn [run Call_map sent];
    unfold IssueBadge, GetBadges, GetBadge, GetBadgeTemplate, GetBadgeTemplates,
      http_NewRequest, Do, http.SetHeader;
    intros Hsent;
    repeat match type of Hsent with
      | context [match json_Marshal ?p with _ => _ end] =>
          destruct (json_Marshal p); [| discriminate Hsent]
      | context [match url_Parse ?u with _ => _ end] =>
          destruct (url_Parse u); [discriminate Hsent |]
      end;
    cbn [http.Header http.Method http.URL http.ReqBody request calls returned head]
      in Hsent;
    destruct (HTTPClient _ _) as [[?|] [?|]];
    cbn [fst snd sent] in Hsent; injection Hsent as <-;
    cbn [http.Header]; apply Header_Set_three.
Qed.

(** Every request [Do] hands to the transport carries the client's stored
    token in its Authorization header. *)
Lemma Do_calls_carry_stored_token (c : Client) (req r : http.Request) :
  r ∈ calls (Do c req) ->
  http.Header r !! "Authorization" = Some ["Basic " +:+ authToken c].
Proof.
  destruct (http.Header req) as [h|] eqn:Hh.
  - rewrite (Do_allocated c req h Hh). cbn [calls].
    intros ->%list_elem_of_singleton. cbn [http.Header]. apply Header_Set_three.
  - unfold Do, http.SetHeader. rewrite Hh. cbn [calls].
    intros Hnone. by apply elem_of_nil in Hnone.
Qed.

Lemma Do_Authorization (c : Client) (req : http.Request) (h : gmap string (list string)) :
  http.Header req = Some h ->
  http.Header (request (Do c req)) !! "Authorization" =
    Some ["Basic " +:+ authToken c].
Proof.
  intros Hh. rewrite (Do_allocated c req h Hh). cbn [request http.Header].
  apply Header_Set_three.
Qed.

(** C2. [NewClient] stores the standard Base64 encoding of the token
    followed by "|"; every request that an operation or [Do] itself
    dispatches for that client carries this stored value after "Basic ",
    so no operation replaces or recomputes it. *)
Theorem C2_NewClient_token_once (token organizationId : string) :
  let c := NewClient token organizationId in
  let encoded := base64.EncodeToString (token +:+ "|") in
  authToken c = encoded ∧
  OrganizationId c = organizationId ∧
  (∀ (o : operation) (r : http.Request),
     sent (run c o) = Some r ->
     http.Header r !! "Authorization" = Some ["Basic " +:+ encoded]) ∧
  (∀ req r : http.Request,
     r ∈ calls (Do c req) ->
     http.Header r !! "Authorization" = Some ["Basic " +:+ encoded]) ∧
  (∀ (req : http.Request) (h : gmap string (list string)),
     http.Header req = Some h ->
     http.Header (request (Do c req)) !! "Authorization" = Some ["Basic " +:+ encoded]).
Proof.
  intros c encoded. split; [reflexivity |]. split; [reflexivity |]. split; [| split].
  - intros o r Hsent. apply (run_sends_stored_token c o r Hsent).
  - intros req r Hr. apply (Do_calls_carry_stored_token c req r Hr).
  - intros req h Hh. apply (Do_Authorization c req h Hh).
Qed.

(** What an operation does with a response the dispatcher returned
    without error: the status check, then the decoder. *)
Lemma run_on_response
    (c : Client) (o : operation) (r : http.Request) (resp : http.Response) :
  sent (run c o) = Some r ->
  HTTPClient c r = (Some resp, None) ->
  let code := http.StatusCode resp in
  let d := decoded o (http.unread (http.Body resp)) in
  (decodes o code = true ->
     outcome (run c o) =
       match json.err d with
       | None => Return (json.target d) None
       | Some e => Return (zero_result o) (Some (decode_failure_prefix o +:+ e))
       end) ∧
  (decodes o code = false ->
     ∃ e : error, outcome (run c o) = Return (zero_result o) (Some e)) ∧
  body (run c o) =
    Some {| http.unread :=
              if decodes o code
              then json.skip (json.nread d) (http.unread (http.Body resp))
              else http.unread (http.Body resp);
            http.closed := true |}.
Proof.
  intros Hsent Htr code d. subst d.
  destruct o; cbn [run Call_map sent body outcome] in *;
    unfold IssueBadge, GetBadges, GetBadge, GetBadgeTemplate, GetBadgeTemplates,
      http_NewRequest, Do in *;
    dispatched Hsent Htr;
    cbn [sent outcome body defer_Close fst snd decoded decodes success_status
           json.err json.target json.nread zero_result];
    fold code; unfold json.Decode;
    repeat match goal with
      | |- context [code =? ?k] => destruct (Z.eqb_spec code k)
      end;
    try (exfalso; unfold http.StatusCreated, http.StatusUnprocessableEntity in *; lia);
    cbn [negb];
    repeat match goal with
      | |- context [match json.err ?x with _ => _ end] => destruct (json.err x)
      | |- context [match getBadgesResponse.Data ?x with _ => _ end] =>
          destruct (getBadgesResponse.Data x)
      end;
    (split; [intros Hd; first [discriminate Hd | reflexivity] |
             split; [intros Hd; first [discriminate Hd | by eexists] | reflexivity]]).
Qed.

(** Four operations name themselves in the text they put before a parse
    error; [GetBadge] does not. *)
Lemma decode_failure_prefix_names_operation (o : operation) :
  strings.Contains (decode_failure_prefix o) ("[credly." +:+ operation_name o +:+ "]") =
    match o with
    | OpGetBadge _ _ => false
    | _ => true
    end.
Proof. destruct o; reflexivity. Qed.

(** C9. Once the dispatcher has returned a response without error, the
    operation closes the response body before it returns, on every exit:
    success, failed status check and failed decoding alike.  The body is
    read by the JSON decoder only: when the status check fails all of it
    is left unread, and otherwise what the decoder did not pull. *)
Theorem C9_body_closed_on_every_exit
    (c : Client) (o : operation) (r : http.Request) (resp : http.Response) :
  sent (run c o) = Some r ->
  HTTPClient c r = (Some resp, None) ->
  let payload := http.unread (http.Body resp) in
  ∃ b : http.ReadCloser,
    body (run c o) = Some b ∧
    http.closed b = true ∧
    http.unread b =
      if decodes o (http.StatusCode resp)
      then json.skip (json.nread (decoded o payload)) payload
      else payload.
Proof.
  intros Hsent Htr payload.
  destruct (run_on_response c o r resp Hsent Htr) as (_ & _ & Hbody).
  eexists. split; [exact Hbody |]. split; reflexivity.
Qed.

(** C10. An operation that returns a non-nil error returns the zero
    value of its result type with it. *)
Theorem C10_error_comes_with_zero_value
    (c : Client) (o : operation) (v : result) (e : error) :
  outcome (run c o) = Return v (Some e) ->
  v = zero_result o.
Proof.
  destruct o; cbn [run Call_map outcome zero_result];
    unfold IssueBadge, GetBadges, GetBadge, GetBadgeTemplate, GetBadgeTemplates,
      http_NewRequest, Do, http.SetHeader, defer_Close, json.Decode;
    repeat match goal with
      | |- context [match json_Marshal ?p with _ => _ end] => destruct (json_Marshal p)
      | |- context [match url_Parse ?u with _ => _ end] => destruct (url_Parse u)
      end;
    cbn [http.Header http.Method http.URL http.ReqBody request calls returned head];
    repeat first
      [ progress cbn [outcome Outcome_map fst snd]
      | match goal with
        | |- context [HTTPClient ?c ?x] => destruct (HTTPClient c x) as [[?|] [?|]]
        | |- context [if ?b then _ else _] => destruct b
        | |- context [match json.err ?d with _ => _ end] => destruct (json.err d)
        | |- context [match getBadgesResponse.Data ?d with _ => _ end] =>
            destruct (getBadgesResponse.Data d)
        end ];
    congruence.
Qed.

End Operations.

(** ** Beyond the status check: failures, request shapes and encodings *)

Lemma append_assoc (a b c : string) : (a +:+ b) +:+ c = a +:+ b +:+ c.
Proof.
  induction a as [|ch a IH]; [reflexivity |].
  change ((String ch a +:+ b) +:+ c) with (String ch ((a +:+ b) +:+ c)).
  by rewrite IH.
Qed.

Lemma length_append (a b : string) :
  String.length (a +:+ b) = (String.length a + String.length b)%nat.
Proof.
  induction a as [|ch a IH]; [reflexivity |].
  change (String ch a +:+ b) with (String ch (a +:+ b)). cbn [String.length].
  by rewrite IH.
Qed.

Lemma append_cancel_r (a b t : string) : a +:+ t = b +:+ t -> a = b.
Proof.
  revert b. induction a as [|ch a IH]; intros [|ch' b] Heq.
  - reflexivity.
  - apply (f_equal String.length) in Heq.
    rewrite !length_append in Heq. cbn [String.length] in Heq. lia.
  - apply (f_equal String.length) in Heq.
    rewrite !length_append in Heq. cbn [String.length] in Heq. lia.
  - change (String ch a +:+ t) with (String ch (a +:+ t)) in Heq.
    change (String ch' b +:+ t) with (String ch' (b +:+ t)) in Heq.
    injection Heq as -> Heq. f_equal. by apply IH.
Qed.

Lemma append_cancel_l (a x y : string) : a +:+ x = a +:+ y -> x = y.
Proof.
  induction a as [|ch a IH]; [done |].
  change (String ch a +:+ x) with (String ch (a +:+ x)).
  change (String ch a +:+ y) with (String ch (a +:+ y)).
  intros Heq. injection Heq as Heq. by apply IH.
Qed.

Lemma all_chars_app (p : ascii -> bool) (a b : string) :
  all_chars p (a +:+ b) = all_chars p a && all_chars p b.
Proof.
  induction a as [|ch a IH]; [reflexivity |].
  change (String ch a +:+ b) with (String ch (a +:+ b)). cbn [all_chars].
  rewrite IH. by rewrite andb_assoc.
Qed.

(** The first steps of an operation that dispatched a request: the
    marshalling and the URL parsing went through, and the dispatcher ran
    on an allocated header map. *)
Ltac built Hsent :=
  repeat match type of Hsent with
    | context [match json_Marshal ?p with _ => _ end] =>
        destruct (json_Marshal p) eqn:?; [| discriminate Hsent]
    | context [match url_Parse ?u with _ => _ end] =>
        destruct (url_Parse u) eqn:?; [discriminate Hsent |]
    end;
  unfold Do, http.SetHeader in *;
  cbn [http.Header http.Method http.URL http.ReqBody request calls returned head] in *.

Section Failures.

Context `{Platform}.
Context `{!json.Decoder issueBadgeResponse.t, !json.Decoder getBadgesResponse.t,
          !json.Decoder getBadgeTemplateResponse.t,
          !json.Decoder getBadgeTemplatesResponse.t}.

(** X1. When the transport returns an error for the request an operation
    dispatched, the operation returns the zero value and that same error,
    whether or not a response came with it, and does not touch the
    response body: it is neither read nor closed. *)
Theorem X1_transport_error_returned_verbatim
    (c : Client) (o : operation) (r : http.Request)
    (resp : option http.Response) (err : error) :
  sent (run c o) = Some r ->
  HTTPClient c r = (resp, Some err) ->
  outcome (run c o) = Return (zero_result o) (Some err) ∧
  body (run c o) = http.Body <$> resp.
Proof.
  intros Hsent Htr.
  destruct o; cbn [run Call_map sent body outcome] in *;
    unfold IssueBadge, GetBadges, GetBadge, GetBadgeTemplate, GetBadgeTemplates,
      http_NewRequest in *;
    built Hsent;
    match type of Hsent with
    | context [HTTPClient ?c0 ?x] =>
        set (X := x) in *;
        destruct (HTTPClient c0 X) as [[?|] [?|]] eqn:E;
        cbn [fst snd sent outcome body] in Hsent |- *; injection Hsent as <-;
        rewrite E in Htr; try discriminate Htr;
        injection Htr as <- <-; split; reflexivity
    end.
Qed.


Lemma api_root_prefix (org tail : string) :
  strings.HasPrefix
    ("https://api.credly.com/v1/organizations/" +:+ org +:+ String "/" tail)
    ("https://api.credly.com/v1/organizations/" +:+ org +:+ "/") = true.
Proof.
  change (String "/" tail) with ("/" +:+ tail).
  rewrite <- (append_assoc org "/" tail).
  rewrite <- (append_assoc "https://api.credly.com/v1/organizations/" (org +:+ "/") tail).
  apply HasPrefix_app.
Qed.

(** X3. Every request an operation dispatches goes to the API root of
    the client's organization, with the organization id put into the path
    as it is; it is a POST with a body for [IssueBadge] and a GET without
    body for the four reads; and it carries exactly the three headers of
    the dispatcher, one value each. *)
Theorem X3_dispatched_request_shape (c : Client) (o : operation) (r : http.Request) :
  sent (run c o) = Some r ->
  strings.HasPrefix (http.URL r)
    ("https://api.credly.com/v1/organizations/" +:+ OrganizationId c +:+ "/") = true ∧
  http.Method r = match o with OpIssueBadge _ _ _ _ => "POST" | _ => "GET" end ∧
  match o with
  | OpIssueBadge _ _ _ _ => ∃ reqBody : string, http.ReqBody r = Some reqBody
  | _ => http.ReqBody r = None
  end ∧
  http.Header r =
    Some {[ "Authorization" := ["Basic " +:+ authToken c];
            "Content-Type" := ["application/json"];
            "Accept" := ["application/json"] ]}.
Proof.
  intros Hsent.
  assert (Hheader :
            http.Header_Set "Accept" "application/json"
              (http.Header_Set "Content-Type" "application/json"
                 (http.Header_Set "Authorization" ("Basic " +:+ authToken c) ∅)) =
            {[ "Authorization" := ["Basic " +:+ authToken c];
               "Content-Type" := ["application/json"];
               "Accept" := ["application/json"] ]}).
  { unfold http.Header_Set. apply map_eq; intros k.
    rewrite !lookup_insert, lookup_singleton, lookup_empty.
    repeat case_decide; congruence. }
  destruct o as [templateId email firstName lastName | email collections
                 | email badgeId | templateId | ];
    cbn [run Call_map sent] in Hsent;
    unfold IssueBadge, GetBadges, GetBadge, GetBadgeTemplate, GetBadgeTemplates,
      http_NewRequest in Hsent;
    built Hsent;
    (destruct (HTTPClient c _) as [[?|] [?|]];
     cbn [fst snd sent] in Hsent; injection Hsent as <-;
     cbn [http.URL http.Method http.ReqBody http.Header]; rewrite Hheader;
     (split; [| split; [reflexivity | split; [first [reflexivity | by eexists] |
                                              reflexivity]]])).
  all: try destruct (0 <? length _)%nat.
  all: rewrite ?append_assoc.
  all: lazymatch goal with
    | |- strings.HasPrefix (_ +:+ ?org +:+ ?t) _ = true =>
        lazymatch t with
        | String _ ?tail +:+ ?rest => exact (api_root_prefix org (tail +:+ rest))
        | String _ ?tail => exact (api_root_prefix org tail)
        end
    end.
Qed.


(** X5. The request [IssueBadge] dispatches is a POST to the badges path
    of the organization whose body is the JSON marshalling of one map
    with exactly five entries: the template id, the recipient's email,
    first and last name as given, and the current time in the layout
    "2006-01-02 15:04:05 -0700". *)
Theorem X5_IssueBadge_request
    (c : Client) (templateId email firstName lastName : string) (r : http.Request) :
  sent (IssueBadge c templateId email firstName lastName) = Some r ->
  http.Method r = "POST" ∧
  http.URL r = "https://api.credly.com/v1/organizations/" +:+ OrganizationId c +:+ "/badges" ∧
  ∃ reqBody : string,
    http.ReqBody r = Some reqBody ∧
    json_Marshal
      {[ "badge_template_id" := templateId;
         "recipient_email" := email;
         "issued_to_first_name" := firstName;
         "issued_to_last_name" := lastName;
         "issued_at" := time_Format time_Now "2006-01-02 15:04:05 -0700" ]} =
      inl reqBody.
Proof.
  intros Hsent.
  unfold IssueBadge, http_NewRequest in Hsent.
  match type of Hsent with
  | context [json_Marshal ?p] =>
      replace p with
        ({[ "badge_template_id" := templateId;
            "recipient_email" := email;
            "issued_to_first_name" := firstName;
            "issued_to_last_name" := lastName;
            "issued_at" := time_Format time_Now "2006-01-02 15:04:05 -0700" ]}
           : gmap string string) in Hsent
  end.
  - built Hsent.
    destruct (HTTPClient c _) as [[?|] [?|]];
      cbn [fst snd sent] in Hsent; injection Hsent as <-;
      cbn [http.URL http.Method http.ReqBody];
      (split; [reflexivity | split; [reflexivity | by eexists]]).
  - apply map_eq; intros k.
    rewrite !lookup_insert, lookup_singleton, lookup_empty.
    repeat case_decide; congruence.
Qed.

(** X6. The URL of a template fetch is the URL of the template listing
    followed by a slash and the template id as it is given, with no
    escaping; an empty id gives the listing's URL with a slash at its
    end. *)
Theorem X6_template_urls
    (c : Client) (templateId : string) (r1 r2 : http.Request) :
  sent (GetBadgeTemplates c) = Some r1 ->
  sent (GetBadgeTemplate c templateId) = Some r2 ->
  http.URL r1 =
    "https://api.credly.com/v1/organizations/" +:+ OrganizationId c +:+ "/badge_templates" ∧
  http.URL r2 = http.URL r1 +:+ "/" +:+ templateId.
Proof.
  intros Hsent1 Hsent2.
  unfold GetBadgeTemplates, http_NewRequest in Hsent1.
  unfold GetBadgeTemplate, http_NewRequest in Hsent2.
  built Hsent1. built Hsent2.
  destruct (HTTPClient c _) as [[?|] [?|]] in Hsent1;
    cbn [fst snd sent] in Hsent1; injection Hsent1 as <-;
    (destruct (HTTPClient c _) as [[?|] [?|]] in Hsent2;
     cbn [fst snd sent] in Hsent2; injection Hsent2 as <-);
    cbn [http.URL]; (split; [reflexivity |]);
    rewrite !append_assoc; reflexivity.
Qed.

(** X7. Dispatching a request again, through the same client or another,
    leaves it as one dispatch through the last client does: each of the
    three headers holds one value, that of the last client, and nothing
    of the earlier dispatch stays. *)
Theorem X7_Do_again_replaces_headers
    (c1 c2 : Client) (req : http.Request) (h : gmap string (list string)) :
  http.Header req = Some h ->
  request (Do c2 (request (Do c1 req))) = request (Do c2 req).
Proof.
  intros Hh.
  unfold Do, http.SetHeader. rewrite Hh.
  cbn [request http.Header http.Method http.URL http.ReqBody]. f_equal. f_equal.
  unfold http.Header_Set. apply map_eq; intros k.
  rewrite !lookup_insert. repeat case_decide; congruence.
Qed.

(** *** The encodings *)

(** Induction over a string three characters at a time, as the Base64
    encoder reads it. *)
Lemma string_ind3 (P : string -> Prop) :
  P "" ->
  (∀ a, P (String a "")) ->
  (∀ a b, P (String a (String b ""))) ->
  (∀ a b c rest, P rest -> P (String a (String b (String c rest)))) ->
  ∀ s, P s.
Proof.
  intros H0' H1' H2' H3' s.
  assert (P s ∧ (∀ a, P (String a s)) ∧ (∀ a b, P (String a (String b s))))
    as (Hs & _ & _); [| exact Hs].
  induction s as [|ch s (IH0 & IH1 & IH2)].
  - repeat split; auto.
  - split; [apply IH1 |]. split; [intros a; apply IH2 |].
    intros a b. apply H3'. exact IH0.
Qed.

Lemma encode_alphabet (v : N) : base64_char (base64.encode v) = true.
Proof.
  unfold base64.encode.
  assert (Hlt : (N.to_nat (N.land v 63) < 64)%nat).
  { change 63%N with (N.ones 6). rewrite N.land_ones.
    pose proof (N.mod_upper_bound v (2 ^ 6)) as Hb.
    change (2 ^ 6)%N with 64%N in *. lia. }
  revert Hlt. generalize (N.to_nat (N.land v 63)) as n. intros n Hlt.
  do 64 (destruct n as [|n]; [reflexivity |]). lia.
Qed.

Lemma EncodeToString_alphabet (s : string) :
  all_chars base64_char (base64.EncodeToString s) = true.
Proof.
  induction s as [| a | a b | a b c rest IH] using string_ind3;
    cbn [base64.EncodeToString all_chars]; rewrite ?encode_alphabet; try reflexivity.
  exact IH.
Qed.

Lemma EncodeToString_length (s : string) :
  String.length (base64.EncodeToString s) = (4 * ((String.length s + 2) / 3))%nat.
Proof.
  induction s as [| a | a b | a b c rest IH] using string_ind3;
    cbn [base64.EncodeToString String.length]; try reflexivity.
  rewrite IH.
  replace (S (S (S (String.length rest))) + 2)%nat
    with ((String.length rest + 2) + 1 * 3)%nat by lia.
  rewrite Nat.div_add by lia. lia.
Qed.

(** X8. Whatever bytes the API token holds, the credential [NewClient]
    stores is made of digits of the standard Base64 alphabet and padding
    only, and is four characters for every three bytes of the token and
    its separator, rounded up: it is never empty. *)
Theorem X8_stored_token_shape (token organizationId : string) :
  all_chars base64_char (authToken (NewClient token organizationId)) = true ∧
  String.length (authToken (NewClient token organizationId)) =
    (4 * (String.length token / 3 + 1))%nat.
Proof.
  cbn [NewClient authToken]. split.
  - apply EncodeToString_alphabet.
  - rewrite EncodeToString_length, length_append. cbn [String.length].
    replace (String.length token + 1 + 2)%nat
      with (String.length token + 1 * 3)%nat by lia.
    by rewrite Nat.div_add by lia.
Qed.

Lemma QueryEscape_alphabet_step (ch : ascii) (rest : string) :
  all_chars query_char (url.QueryEscape (String ch rest)) =
  all_chars query_char (url.QueryEscape rest).
Proof.
  destruct ch as [[] [] [] [] [] [] [] []]; reflexivity.
Qed.

Lemma QueryEscape_alphabet (s : string) :
  all_chars query_char (url.QueryEscape s) = true.
Proof.
  induction s as [|ch s IH]; [reflexivity |]. by rewrite QueryEscape_alphabet_step.
Qed.

(** X9. In the URL [GetBadges] requests, all that follows the fixed text
    of the email filter is made of unreserved characters, percent signs
    and plus signs: no byte of the email or of a collection reaches the
    URL as a separator of its own. *)
Theorem X9_GetBadges_filter_is_escaped
    (c : Client) (email : string) (collections : list string) (r : http.Request) :
  sent (GetBadges c email collections) = Some r ->
  ∃ q : string,
    http.URL r =
      ("https://api.credly.com/v1/organizations/" +:+ OrganizationId c +:+ "/badges")
        +:+ "?filter=recipient_email_all::" +:+ q ∧
    all_chars query_char q = true.
Proof.
  intros Hsent.
  set (badges := "https://api.credly.com/v1/organizations/" +:+ OrganizationId c
                   +:+ "/badges").
  set (colFilter := "|badge_templates[reporting_tags]::" +:+ strings.Join collections ",").
  assert (http.URL r =
            if (0 <? length collections)%nat
            then (badges +:+ "?filter=recipient_email_all::" +:+ url.QueryEscape email)
                   +:+ url.QueryEscape colFilter
            else badges +:+ "?filter=recipient_email_all::" +:+ url.QueryEscape email)
    as HURL.
  { unfold GetBadges, http_NewRequest in Hsent. built Hsent.
    destruct (HTTPClient c _) as [[?|] [?|]];
      cbn [fst snd sent] in Hsent; injection Hsent as <-; reflexivity. }
  rewrite HURL. destruct (0 <? length collections)%nat.
  - exists (url.QueryEscape email +:+ url.QueryEscape colFilter). split.
    + by rewrite !append_assoc.
    + by rewrite all_chars_app, !QueryEscape_alphabet.
  - exists (url.QueryEscape email). split; [reflexivity | apply QueryEscape_alphabet].
Qed.

Lemma QueryEscape_length (s : string) :
  (String.length s <= String.length (url.QueryEscape s))%nat.
Proof.
  induction s as [|ch s IH]; [reflexivity |].
  cbn [url.QueryEscape].
  destruct (url.shouldEscape ch); [destruct (Ascii.eqb ch " ") |];
    cbn [String.length]; lia.
Qed.

Lemma QueryEscape_fixed (s : string) :
  url.QueryEscape s = s <-> all_chars unreserved s = true.
Proof.
  induction s as [|ch s IH]; [done |].
  cbn [url.QueryEscape all_chars]. unfold unreserved at 1.
  destruct (url.shouldEscape ch) eqn:Hesc; cbn [negb andb].
  - split; [| discriminate].
    destruct (Ascii.eqb ch " ") eqn:Hsp.
    + apply Ascii.eqb_eq in Hsp. subst ch. discriminate.
    + intros Heq. injection Heq as _ Heq.
      pose proof (QueryEscape_length s) as Hlen.
      apply (f_equal String.length) in Heq. cbn [String.length] in Heq.
      destruct s as [|ch' s]; [discriminate Heq |].
      cbn [String.length] in Heq, Hlen. lia.
  - rewrite <- IH. split; [by intros [= ->] | by intros ->].
Qed.

(** X10. The URL of a badge lookup is the URL of the badge listing for
    the same email, followed by the template filter, exactly when no
    character of the email needs escaping: the listing escapes the email
    and the lookup does not. *)
Theorem X10_email_filters_agree_iff_unreserved
    (c : Client) (email badgeId : string) (r1 r2 : http.Request) :
  sent (GetBadges c email []) = Some r1 ->
  sent (GetBadge c email badgeId) = Some r2 ->
  http.URL r2 = http.URL r1 +:+ "|badge_template_id::" +:+ badgeId <->
  all_chars unreserved email = true.
Proof.
  intros Hsent1 Hsent2.
  assert (HURL1 : http.URL r1 =
            ("https://api.credly.com/v1/organizations/" +:+ OrganizationId c +:+ "/badges")
              +:+ "?filter=recipient_email_all::" +:+ url.QueryEscape email).
  { clear Hsent2. unfold GetBadges, http_NewRequest in Hsent1.
    cbn [length Nat.ltb Nat.leb] in Hsent1. built Hsent1.
    destruct (HTTPClient c _) as [[?|] [?|]];
      cbn [fst snd sent] in Hsent1; injection Hsent1 as <-; reflexivity. }
  assert (HURL2 : http.URL r2 =
            ("https://api.credly.com/v1/organizations/" +:+ OrganizationId c +:+ "/badges")
              +:+ "?filter=recipient_email_all::" +:+ email
              +:+ "|badge_template_id::" +:+ badgeId).
  { clear Hsent1 HURL1. unfold GetBadge, http_NewRequest in Hsent2. built Hsent2.
    destruct (HTTPClient c _) as [[?|] [?|]];
      cbn [fst snd sent] in Hsent2; injection Hsent2 as <-; reflexivity. }
  rewrite HURL1, HURL2, <- QueryEscape_fixed.
  set (B := "https://api.credly.com/v1/organizations/" +:+ OrganizationId c +:+ "/badges").
  set (T := "|badge_template_id::" +:+ badgeId).
  rewrite (append_assoc B _ T), (append_assoc "?filter=recipient_email_all::" _ T).
  split.
  - intros Heq.
    apply (append_cancel_l B) in Heq.
    apply (append_cancel_l "?filter=recipient_email_all::") in Heq.
    symmetry. exact (append_cancel_r _ _ T Heq).
  - by intros ->.
Qed.

Lemma Join_comma (x y : string) (rest : list string) :
  strings.Join ((x +:+ "," +:+ y) :: rest) "," = strings.Join (x :: y :: rest) ",".
Proof.
  destruct rest as [|z rest]; cbn [strings.Join]; [reflexivity |].
  by rewrite !append_assoc.
Qed.

(** X11. The collections reach the filter joined by commas, so a
    collection whose name holds a comma cannot be told from two
    collections: [GetBadges] does exactly the same for the one list as
    for the other. *)
Theorem X11_GetBadges_comma_in_collection
    (c : Client) (email x y : string) (rest : list string) :
  GetBadges c email ((x +:+ "," +:+ y) :: rest) = GetBadges c email (x :: y :: rest).
Proof.
  unfold GetBadges. cbn [length Nat.ltb Nat.leb]. by rewrite Join_comma.
Qed.

(** X12. When the transport answers a badge listing and a badge lookup
    with the same response and the listing returns a list, the lookup
    returns the first badge of that list, or the zero badge when the list
    is empty. *)
Theorem X12_GetBadge_is_first_of_GetBadges
    (c : Client) (email email' badgeId : string) (collections : list string)
    (r1 r2 : http.Request) (resp : http.Response) (l : list BadgeInfo.t) :
  sent (GetBadges c email collections) = Some r1 ->
  HTTPClient c r1 = (Some resp, None) ->
  sent (GetBadge c email' badgeId) = Some r2 ->
  HTTPClient c r2 = (Some resp, None) ->
  outcome (GetBadges c email collections) = Return l None ->
  outcome (GetBadge c email' badgeId) = Return (hd BadgeInfo.zero l) None.
Proof.
  intros Hsent1 Htr1 Hsent2 Htr2 Hlist.
  assert (Hd : json.err (json.decode (T := getBadgesResponse.t)
                           (http.unread (http.Body resp))) = None ∧
               l = getBadgesResponse.Data
                     (json.target (json.decode (http.unread (http.Body resp))))).
  { clear Hsent2 Htr2.
    unfold GetBadges, http_NewRequest in Hsent1, Hlist.
    dispatched Hsent1 Htr1.
    cbn [sent outcome body defer_Close fst snd] in Hlist. unfold json.Decode in Hlist.
    destruct (negb _); [discriminate Hlist |].
    destruct (json.err _); [discriminate Hlist |].
    cbn [fst] in Hlist. injection Hlist as <-. done. }
  destruct Hd as [Herr ->]. clear Hsent1 Htr1 Hlist.
  unfold GetBadge, http_NewRequest in *.
  dispatched Hsent2 Htr2.
  cbn [sent outcome body defer_Close fst snd]. unfold json.Decode. rewrite Herr.
  by destruct (getBadgesResponse.Data _).
Qed.

(** X13. When the body of a response that passed the status check does
    not decode, every operation returns the zero value and an error made
    of a fixed text and the decoder's error: "[credly.<operation>] Failed
    to parse JSON data: " for four operations, and the same without the
    bracketed name for [GetBadge]. *)
Theorem X13_decode_failure_is_wrapped
    (c : Client) (o : operation) (r : http.Request) (resp : http.Response) (e : error) :
  sent (run c o) = Some r ->
  HTTPClient c r = (Some resp, None) ->
  decodes o (http.StatusCode resp) = true ->
  json.err (decoded o (http.unread (http.Body resp))) = Some e ->
  outcome (run c o) = Return (zero_result o) (Some (decode_failure_prefix o +:+ e)) ∧
  decode_failure_prefix o =
    match o with
    | OpIssueBadge _ _ _ _ => "[credly.IssueBadge] Failed to parse JSON data: "
    | OpGetBadges _ _ => "[credly.GetBadges] Failed to parse JSON data: "
    | OpGetBadge _ _ => "Failed to parse JSON data: "
    | OpGetBadgeTemplate _ => "[credly.GetBadgeTemplate] Failed to parse JSON data: "
    | OpGetBadgeTemplates => "[credly.GetBadgeTemplates] Failed to parse JSON data: "
    end.
Proof.
  intros Hsent Htr Hdecodes Herr.
  destruct (run_on_response c o r resp Hsent Htr) as (Hout & _ & _).
  specialize (Hout Hdecodes). rewrite Herr in Hout.
  split; [exact Hout | by destruct o].
Qed.

End Failures.

(** ** The package's tests, replayed *)

#[local] Existing Instance test_platform.
#[local] Existing Instance test_issueBadge_decoder.
#[local] Existing Instance test_getBadges_decoder.
#[local] Existing Instance test_getBadgeTemplate_decoder.
#[local] Existing Instance test_getBadgeTemplates_decoder.

(** [TestDo]: the response comes back as the mock gave it, the mock was
    called once, and the three headers read as expected. *)
Example TestDo :
  let expectedResponse := http.mkResponse 200 (newBody "") in
  let client := test_client 200 "" in
  let req := {| http.Method := "GET";
                http.URL := "https://api.credly.com/v1/some-endpoint";
                http.Header := Some ∅;
                http.ReqBody := None |} in
  let req' := request (Do client req) in
  returned (Do client req) = Return (Some expectedResponse) None ∧
  calls (Do client req) = [req'] ∧
  http.Header_Get "Authorization" (http.Header req') = "Basic " +:+ authToken client ∧
  http.Header_Get "Content-Type" (http.Header req') = "application/json" ∧
  http.Header_Get "Accept" (http.Header req') = "application/json" ∧
  http.Header req' =
    Some {[ "Authorization" := ["Basic dGVzdC10b2tlbnw="];
            "Content-Type" := ["application/json"];
            "Accept" := ["application/json"] ]}.
Proof.
  repeat apply conj; reflexivity.
Qed.

(** The request of [TestDo] again: the mock is called once, with the
    request as the dispatcher left it, and its response is returned. *)
Lemma C1_Do_sets_three_headers_and_forwards_witness :
  let client := test_client 200 "" in
  let req := {| http.Method := "GET";
                http.URL := "https://api.credly.com/v1/some-endpoint";
                http.Header := Some ∅;
                http.ReqBody := None |} in
  http.Header (request (Do client req)) !! "Authorization" =
    Some ["Basic dGVzdC10b2tlbnw="] ∧
  calls (Do client req) = [request (Do client req)] ∧
  returned (Do client req) = Return (Some (http.mkResponse 200 (newBody ""))) None.
Proof.
  intros client req.
  destruct (C1_Do_sets_three_headers_and_forwards client req ∅ eq_refl)
    as (Hauth & _ & _ & _ & _ & _ & _ & Hcalls & Hreturned).
  split; [exact Hauth |]. split; [exact Hcalls | exact Hreturned].
Defined.

(** The same request built by hand, its header map left nil: the first
    [Header.Set] panics, so no header is set, the transport is never
    called and nothing is returned. *)
Lemma C1_Do_nil_header_counterexample :
  let client := test_client 200 "" in
  let req := {| http.Method := "GET";
                http.URL := "https://api.credly.com/v1/some-endpoint";
                http.Header := None;
                http.ReqBody := None |} in
  returned (Do client req) = Panic ∧
  calls (Do client req) = [] ∧
  request (Do client req) = req ∧
  ¬ (http.Header (request (Do client req)) !! "Authorization" =
       Some ["Basic " +:+ authToken client]) ∧
  ¬ (∃ (resp : option http.Response) (err : option error),
       returned (Do client req) = Return resp err).
Proof.
  intros client req.
  split; [reflexivity |]. split; [reflexivity |]. split; [reflexivity |]. split.
  - discriminate.
  - intros (resp & err & Hreturned). discriminate Hreturned.
Qed.

(** [TestNewClient], and the header of a badge listing the new client
    dispatches. *)
Lemma C2_NewClient_token_once_witness :
  authToken (NewClient "test-token" "abcd-efgh-1234-5678") = "dGVzdC10b2tlbnw=" ∧
  (∃ r : http.Request,
     sent (run (NewClient "test-token" "abcd-efgh-1234-5678")
             (OpGetBadges "test@example.com" [])) = Some r ∧
     http.Header r !! "Authorization" = Some ["Basic dGVzdC10b2tlbnw="]) ∧
  http.Header
    (request (Do (NewClient "test-token" "abcd-efgh-1234-5678")
                {| http.Method := "GET";
                   http.URL := "https://api.credly.com/v1/some-endpoint";
                   http.Header := Some ∅;
                   http.ReqBody := None |})) !! "Authorization" =
    Some ["Basic dGVzdC10b2tlbnw="].
Proof.
  destruct (C2_NewClient_token_once "test-token" "abcd-efgh-1234-5678")
    as (Htoken & _ & Hops & _ & Hdo).
  split; [exact Htoken |]. split.
  - eexists. split; [reflexivity |].
    apply (Hops (OpGetBadges "test@example.com" [])). reflexivity.
  - exact (Hdo {| http.Method := "GET";
                  http.URL := "https://api.credly.com/v1/some-endpoint";
                  http.Header := Some ∅;
                  http.ReqBody := None |} ∅ eq_refl).
Defined.

(** [TestIssueBadge], [TestIssueBadge_BadgeAlreadyIssued] and
    [TestIssueBadge_Failure]. *)
Lemma C3_IssueBadge_status_handling_witness :
  outcome (IssueBadge (test_client 201 "{badge-123}")
             "template-123" "test@example.com" "John" "Doe") =
    Return test_badge None ∧
  outcome (IssueBadge (test_client 422 "")
             "template-123" "test@example.com" "John" "Doe") =
    Return BadgeInfo.zero (Some "User already has this badge") ∧
  outcome (IssueBadge (test_client 500 "")
             "template-123" "test@example.com" "John" "Doe") =
    Return BadgeInfo.zero
      (Some "[credly.IssueBadge] API request failed with status code: 500").
Proof.
  split; [| split].
  - edestruct (C3_IssueBadge_status_handling (test_client 201 "{badge-123}")
                 "template-123" "test@example.com" "John" "Doe")
      as (H201 & _ & _); [reflexivity | reflexivity |].
    exact (H201 eq_refl eq_refl).
  - edestruct (C3_IssueBadge_status_handling (test_client 422 "")
                 "template-123" "test@example.com" "John" "Doe")
      as (_ & H422 & _); [reflexivity | reflexivity |].
    exact (proj1 (H422 eq_refl)).
  - edestruct (C3_IssueBadge_status_handling (test_client 500 "")
                 "template-123" "test@example.com" "John" "Doe")
      as (_ & _ & Hother); [reflexivity | reflexivity |].
    apply Hother; discriminate.
Defined.

Lemma C4_IssueBadge_already_issued_witness :
  outcome (IssueBadge (test_client 422 "{badge-123}")
             "template-123" "test@example.com" "John" "Doe") =
    Return BadgeInfo.zero (Some "User already has this badge").
Proof.
  eapply proj1.
  eapply (C4_IssueBadge_already_issued (test_client 422 "{badge-123}")); reflexivity.
Defined.

(** [TestGetBadges_WithCollections] and [TestGetBadges_NoCollections]:
    the URLs requested. *)
Lemma C5_GetBadges_url_witness :
  (∃ r : http.Request,
     sent (GetBadges (test_client 200 "{badges}") "test@example.com"
             ["collection1"; "collection2"]) = Some r ∧
     http.URL r =
       "https://api.credly.com/v1/organizations/abcd-efgh-1234-5678/badges?filter=recipient_email_all::test%40example.com%7Cbadge_templates%5Breporting_tags%5D%3A%3Acollection1%2Ccollection2") ∧
  (∃ r : http.Request,
     sent (GetBadges (test_client 200 "{badges}") "test@example.com" []) = Some r ∧
     http.URL r =
       "https://api.credly.com/v1/organizations/abcd-efgh-1234-5678/badges?filter=recipient_email_all::test%40example.com").
Proof.
  split.
  - eexists. split; [reflexivity |].
    edestruct (C5_GetBadges_url (test_client 200 "{badges}") "test@example.com"
                 ["collection1"; "collection2"]) as (Hsome & _); [reflexivity |].
    exact (proj1 (Hsome ltac:(discriminate))).
  - eexists. split; [reflexivity |].
    edestruct (C5_GetBadges_url (test_client 200 "{badges}") "test@example.com" [])
      as (_ & Hnone); [reflexivity |].
    exact (Hnone eq_refl).
Defined.

(** [TestGetBadge], and the lookup that finds no badge behind a status
    404. *)
Lemma C6_GetBadge_first_or_zero_witness :
  outcome (GetBadge (test_client 200 "{badges}") "test@example.com" "badge-123") =
    Return test_badge None ∧
  outcome (GetBadge (test_client 404 "{}") "test@example.com" "badge-123") =
    Return BadgeInfo.zero None ∧
  ∃ r : http.Request,
    sent (GetBadge (test_client 404 "{}") "a b@example.com" "badge 123") = Some r ∧
    http.URL r =
      "https://api.credly.com/v1/organizations/abcd-efgh-1234-5678/badges?filter=recipient_email_all::a b@example.com|badge_template_id::badge 123".
Proof.
  split; [| split].
  - edestruct (C6_GetBadge_first_or_zero (test_client 200 "{badges}")
                 "test@example.com" "badge-123") as (_ & Hfirst & _);
      [reflexivity | reflexivity |].
    exact (Hfirst eq_refl).
  - edestruct (C6_GetBadge_first_or_zero (test_client 404 "{}")
                 "test@example.com" "badge-123") as (_ & _ & Hempty);
      [reflexivity | reflexivity |].
    exact (Hempty eq_refl eq_refl).
  - eexists. split; [reflexivity |].
    edestruct (C6_GetBadge_first_or_zero (test_client 404 "{}")
                 "a b@example.com" "badge 123") as (HURL & _);
      [reflexivity | reflexivity |].
    exact HURL.
Defined.

(** [TestGetBadges_NoCollections], [TestGetBadges_Failure],
    [TestGetBadgeTemplate], [TestGetBadgeTemplate_Failure] and
    [TestGetBadgeTemplates]. *)
Lemma C8_reads_check_status_200_witness :
  outcome (GetBadges (test_client 200 "{badges}") "test@example.com" []) =
    Return [test_badge; test_badge2] None ∧
  outcome (GetBadges (test_client 500 "") "test@example.com" []) =
    Return [] (Some "[credly.GetBadges] API request failed with status code: 500") ∧
  outcome (GetBadgeTemplate (test_client 200 "{template}") "template-123") =
    Return test_template None ∧
  outcome (GetBadgeTemplate (test_client 500 "") "template-123") =
    Return BadgeTemplate.zero
      (Some "[credly.GetBadgeTemplate] API request failed with status code: 500") ∧
  outcome (GetBadgeTemplates (test_client 200 "{templates}")) =
    Return [test_template] None.
Proof.
  destruct C8_reads_check_status_200 as (Hbadges & Htemplate & Htemplates).
  repeat apply conj.
  - edestruct (Hbadges (test_client 200 "{badges}") "test@example.com" [])
      as (H200 & _); [reflexivity | reflexivity |].
    exact (H200 eq_refl eq_refl).
  - edestruct (Hbadges (test_client 500 "") "test@example.com" [])
      as (_ & Hother); [reflexivity | reflexivity |].
    exact (proj1 (Hother ltac:(discriminate))).
  - edestruct (Htemplate (test_client 200 "{template}") "template-123")
      as (H200 & _); [reflexivity | reflexivity |].
    exact (H200 eq_refl eq_refl).
  - edestruct (Htemplate (test_client 500 "") "template-123")
      as (_ & Hother); [reflexivity | reflexivity |].
    exact (proj1 (Hother ltac:(discriminate))).
  - edestruct (Htemplates (test_client 200 "{templates}"))
      as (H200 & _); [reflexivity | reflexivity |].
    exact (H200 eq_refl eq_refl).
Defined.

(** An issuance answered with status 500 and a body: the operation
    returns with the body closed, and no byte of it has been read. *)
Lemma C9_body_not_consumed_counterexample :
  let c := test_client 500 "Internal Server Error" in
  let call := IssueBadge c "template-123" "test@example.com" "John" "Doe" in
  (∃ (r : http.Request) (resp : http.Response),
     sent call = Some r ∧ HTTPClient c r = (Some resp, None)) ∧
  body call =
    Some {| http.unread := "Internal Server Error"; http.closed := true |} ∧
  ¬ (∃ b : http.ReadCloser,
       body call = Some b ∧ http.unread b = "" ∧ http.closed b = true).
Proof.
  split; [| split].
  - eexists _, _. split; reflexivity.
  - reflexivity.
  - intros (b & Hbody & Hunread & _).
    injection Hbody as <-. discriminate Hunread.
Qed.

(** The same issuance, and a badge listing whose body is decoded: both
    bodies end up closed, the first unread, the second read by the
    decoder. *)
Lemma C9_body_closed_on_every_exit_witness :
  body (test_run 500 "Internal Server Error"
          (OpIssueBadge "template-123" "test@example.com" "John" "Doe")) =
    Some {| http.unread := "Internal Server Error"; http.closed := true |} ∧
  body (test_run 200 "{badges}" (OpGetBadges "test@example.com" [])) =
    Some {| http.unread := ""; http.closed := true |}.
Proof.
  split.
  - edestruct (C9_body_closed_on_every_exit
                 (test_client 500 "Internal Server Error")
                 (OpIssueBadge "template-123" "test@example.com" "John" "Doe"))
      as (b & Hbody & Hclosed & Hunread); [reflexivity | reflexivity |].
    destruct b as [u cl]. cbn in Hclosed, Hunread. subst u cl. exact Hbody.
  - edestruct (C9_body_closed_on_every_exit
                 (test_client 200 "{badges}") (OpGetBadges "test@example.com" []))
      as (b & Hbody & Hclosed & Hunread); [reflexivity | reflexivity |].
    destruct b as [u cl]. cbn in Hclosed, Hunread. subst u cl. exact Hbody.
Defined.

(** A badge listing whose body does not parse: the decoder leaves a
    badge in its target, and the operation returns the nil list with the
    error. *)
Lemma C10_error_comes_with_zero_value_witness :
  outcome (test_run 200 "not json" (OpGetBadges "test@example.com" [])) =
    Return (RBadges [])
      (Some "[credly.GetBadges] Failed to parse JSON data: invalid character 'o' in literal null (expecting 'u')") ∧
  json.target (test_getBadges_decoder "not json") = getBadgesResponse.mk [test_badge] ∧
  RBadges [] = zero_result (OpGetBadges "test@example.com" []).
Proof.
  split; [reflexivity |]. split; [reflexivity |].
  eapply (C10_error_comes_with_zero_value (test_client 200 "not json")
            (OpGetBadges "test@example.com" [])).
  reflexivity.
Defined.

(** C7. A badge lookup whose body does not parse: the error [GetBadge]
    returns is "Failed to parse JSON data: " and the parse error, with no
    operation name in it, where the other four operations put
    "[credly.<operation>] " first. *)
Theorem C7_GetBadge_decode_error_lacks_operation_name :
  let o := OpGetBadge "test@example.com" "badge-123" in
  let e := "Failed to parse JSON data: invalid character 'o' in literal null (expecting 'u')" in
  outcome (test_run 200 "not json" o) = Return (RBadge BadgeInfo.zero) (Some e) ∧
  strings.Contains e (operation_name o) = false ∧
  outcome (test_run 200 "not json" (OpGetBadges "test@example.com" [])) =
    Return (RBadges [])
      (Some ("[credly.GetBadges] " +:+ e)).
Proof.
  split; [reflexivity |]. split; reflexivity.
Qed.

(** ** Failures and request shapes, on the doubles *)

(** A client fresh from [NewClient] on a platform without network: the
    connection error comes back as it is.  A transport that returns a
    response together with an error: the error comes back, the body stays
    open. *)
Lemma X1_transport_error_returned_verbatim_witness :
  outcome (run (NewClient "test-token" "abcd-efgh-1234-5678")
             (OpGetBadges "test@example.com" [])) =
    Return (RBadges []) (Some "dial tcp: connection refused") ∧
  body (run (mkClient
               (MockHTTPClient (Some (http.mkResponse 302 (newBody "Found")))
                  (Some "stopped after 10 redirects"))
               "dGVzdC10b2tlbnw=" "abcd-efgh-1234-5678")
          OpGetBadgeTemplates) =
    Some (newBody "Found").
Proof.
  split.
  - edestruct (X1_transport_error_returned_verbatim
                 (NewClient "test-token" "abcd-efgh-1234-5678")
                 (OpGetBadges "test@example.com" []))
      as (Hout & _); [reflexivity | reflexivity |].
    exact Hout.
  - edestruct (X1_transport_error_returned_verbatim
                 (mkClient
                    (MockHTTPClient (Some (http.mkResponse 302 (newBody "Found")))
                       (Some "stopped after 10 redirects"))
                    "dGVzdC10b2tlbnw=" "abcd-efgh-1234-5678")
                 OpGetBadgeTemplates)
      as (_ & Hbody); [reflexivity | reflexivity |].
    exact Hbody.
Defined.


(** The request of [TestIssueBadge]. *)
Lemma X3_dispatched_request_shape_witness :
  ∃ r : http.Request,
    sent (test_run 201 "{badge-123}"
            (OpIssueBadge "template-123" "test@example.com" "John" "Doe")) = Some r ∧
    http.Method r = "POST" ∧
    http.Header r =
      Some {[ "Authorization" := ["Basic dGVzdC10b2tlbnw="];
              "Content-Type" := ["application/json"];
              "Accept" := ["application/json"] ]}.
Proof.
  eexists. split; [reflexivity |].
  edestruct (X3_dispatched_request_shape (test_client 201 "{badge-123}")
               (OpIssueBadge "template-123" "test@example.com" "John" "Doe"))
    as (_ & Hmethod & _ & Hheader); [reflexivity |].
  split; [exact Hmethod | exact Hheader].
Defined.


(** The body of [TestIssueBadge]'s request is what the marshaller made
    of the five parameters. *)
Lemma X5_IssueBadge_request_witness :
  ∃ r : http.Request,
    sent (IssueBadge (test_client 201 "{badge-123}")
            "template-123" "test@example.com" "John" "Doe") = Some r ∧
    http.Method r = "POST" ∧
    http.URL r = "https://api.credly.com/v1/organizations/abcd-efgh-1234-5678/badges" ∧
    http.ReqBody r = Some "{}".
Proof.
  eexists. split; [reflexivity |].
  edestruct (X5_IssueBadge_request (test_client 201 "{badge-123}")
               "template-123" "test@example.com" "John" "Doe")
    as (Hmethod & HURL & reqBody & Hbody & Hmarshal); [reflexivity |].
  split; [exact Hmethod |]. split; [exact HURL |].
  injection Hmarshal as <-. exact Hbody.
Defined.

(** [TestGetBadgeTemplate] and [TestGetBadgeTemplates]: the two URLs. *)
Lemma X6_template_urls_witness :
  ∃ r1 r2 : http.Request,
    sent (GetBadgeTemplates (test_client 200 "{templates}")) = Some r1 ∧
    sent (GetBadgeTemplate (test_client 200 "{templates}") "template-123") = Some r2 ∧
    http.URL r1 =
      "https://api.credly.com/v1/organizations/abcd-efgh-1234-5678/badge_templates" ∧
    http.URL r2 =
      "https://api.credly.com/v1/organizations/abcd-efgh-1234-5678/badge_templates/template-123".
Proof.
  eexists _, _. split; [reflexivity |]. split; [reflexivity |].
  edestruct (X6_template_urls (test_client 200 "{templates}") "template-123")
    as (HURL1 & HURL2); [reflexivity | reflexivity |].
  split; [exact HURL1 | exact HURL2].
Defined.

(** A request of the test client dispatched again by a client with
    another token. *)
Lemma X7_Do_again_replaces_headers_witness :
  let other := mkClient (MockHTTPClient None None) "b3RoZXJ8" "abcd-efgh-1234-5678" in
  let req := {| http.Method := "GET";
                http.URL := "https://api.credly.com/v1/some-endpoint";
                http.Header := Some ∅;
                http.ReqBody := None |} in
  http.Header (request (Do other (request (Do (test_client 200 "") req)))) =
    Some {[ "Authorization" := ["Basic b3RoZXJ8"];
            "Content-Type" := ["application/json"];
            "Accept" := ["application/json"] ]}.
Proof.
  intros other req.
  rewrite (X7_Do_again_replaces_headers (test_client 200 "") other req ∅ eq_refl).
  reflexivity.
Defined.

(** [TestGetBadges_WithCollections]: what follows the fixed text of the
    filter. *)
Lemma X9_GetBadges_filter_is_escaped_witness :
  ∃ (r : http.Request) (q : string),
    sent (GetBadges (test_client 200 "{badges}") "test@example.com"
            ["collection1"; "collection2"]) = Some r ∧
    http.URL r =
      "https://api.credly.com/v1/organizations/abcd-efgh-1234-5678/badges"
        +:+ "?filter=recipient_email_all::" +:+ q ∧
    all_chars query_char q = true.
Proof.
  edestruct (X9_GetBadges_filter_is_escaped (test_client 200 "{badges}")
               "test@example.com" ["collection1"; "collection2"])
    as (q & HURL & Hq); [reflexivity |].
  eexists _, q. split; [reflexivity |]. split; [exact HURL | exact Hq].
Defined.

(** An email of unreserved characters only: listing and lookup agree on
    the filter. *)
Lemma X10_email_filters_agree_iff_unreserved_witness :
  ∃ r1 r2 : http.Request,
    sent (GetBadges (test_client 200 "{badges}") "joe" []) = Some r1 ∧
    sent (GetBadge (test_client 200 "{badges}") "joe" "badge-123") = Some r2 ∧
    http.URL r2 = http.URL r1 +:+ "|badge_template_id::" +:+ "badge-123".
Proof.
  eexists _, _. split; [reflexivity |]. split; [reflexivity |].
  eapply (X10_email_filters_agree_iff_unreserved (test_client 200 "{badges}")
            "joe" "badge-123"); reflexivity.
Defined.

(** [TestGetBadge] beside [TestGetBadges_NoCollections]: the lookup
    returns the first badge of the listing. *)
Lemma X12_GetBadge_is_first_of_GetBadges_witness :
  outcome (GetBadges (test_client 200 "{badges}") "test@example.com" []) =
    Return [test_badge; test_badge2] None ∧
  outcome (GetBadge (test_client 200 "{badges}") "test@example.com" "badge-123") =
    Return test_badge None.
Proof.
  split; [reflexivity |].
  exact (X12_GetBadge_is_first_of_GetBadges (test_client 200 "{badges}")
           "test@example.com" "test@example.com" "badge-123" [] _ _
           (http.mkResponse 200 (newBody "{badges}")) [test_badge; test_badge2]
           eq_refl eq_refl eq_refl eq_refl eq_refl).
Defined.

(** A template fetch whose body does not parse. *)
Lemma X13_decode_failure_is_wrapped_witness :
  outcome (test_run 200 "not json" (OpGetBadgeTemplate "template-123")) =
    Return (RTemplate BadgeTemplate.zero)
      (Some "[credly.GetBadgeTemplate] Failed to parse JSON data: invalid character 'o' in literal null (expecting 'u')").
Proof.
  edestruct (X13_decode_failure_is_wrapped (test_client 200 "not json")
               (OpGetBadgeTemplate "template-123"))
    as (Hout & _); [reflexivity | reflexivity | reflexivity | reflexivity |].
  exact Hout.
Defined.
